(** * Mandelbrot zoom viewer: escape-time kernels, grid evaluation, zoom
      transform, colouring and the render queue

    The development embeds the two programs of the repository,
    [set.py] (thread-pool renderer, module [SetPy]) and [gpuset.py]
    (OpenCL renderer with a background render thread, module [GpuSet]).

    Conventions of the embedding.
    - Python [int] and the C / numpy [int32] values are integers of [Z];
      every such value that occurs is an iteration count, a pixel index or
      a product of a count by 5 or 13, and stays far inside 32 bits for the
      iteration caps the program uses (at most 2048).
    - Python [float], numpy [float64] and the OpenCL [float] are read as
      exact rationals of [Q]: sums, products and quotients are the exact
      ones, and equality of coordinates is [Qeq] ([==]).
    - [int(x)] on a float truncates towards zero: [Qtrunc].
    - A Python exception (index out of range, division by zero) is [None].

    The exact reading of the floats is the reading of every statement
    that says so.  Where the rounding of the machine decides, the zoom of
    gpuset.py is given a second time on IEEE binary64, the floats of
    Python, in module [GpuSet64]. *)

From Stdlib Require Import ZArith QArith Qabs Qround Lia Lqa Permutation.
From Stdlib Require Import PrimFloat FloatOps SpecFloat.
From stdpp Require Import base option list gmap.

#[local] Open Scope Z_scope.
#[local] Set Warnings "-inexact-float".

(** ** Shared arithmetic *)

(** [range(n)] of Python: 0, 1, ..., n-1, empty when [n <= 0]. *)
Definition range (n : Z) : list Z := Z.of_nat <$> seq 0 (Z.to_nat n).

(** Python's [seq[i]]: a negative index counts from the end, an index out
    of range raises. *)
Definition py_index {A} (l : list A) (i : Z) : option A :=
  if i <? 0 then
    (if i + Z.of_nat (length l) <? 0 then None
     else l !! Z.to_nat (i + Z.of_nat (length l)))
  else l !! Z.to_nat i.

(** [int(x)] on a float: truncation towards zero. *)
Definition Qtrunc (x : Q) : Z := Z.quot (Qnum x) (Z.pos (Qden x)).

(** Strict comparison of floats, as a boolean. *)
Definition Qgtb (x y : Q) : bool :=
  match (x ?= y)%Q with Gt => true | _ => false end.

Definition Qeqb (x y : Q) : bool :=
  match (x ?= y)%Q with Eq => true | _ => false end.

(** A [for a in l: body] loop over a state, stopping at the first
    exception. *)
Fixpoint for_in {S A} (l : list A) (body : A -> S -> option S) (s : S)
    : option S :=
  match l with
  | [] => Some s
  | a :: l' => s' ← body a s; for_in l' body s'
  end.

(** ** set.py *)
Module SetPy.

Definition WIDTH : Z := 800.
Definition HEIGHT : Z := 600.
Definition MAX_ITER : Z := 256.
Definition ZOOM_FACTOR : Q := 12 # 10.
Definition RENDER_WIDTH : Z := 400.
Definition RENDER_HEIGHT : Z := 300.

(** A Python [complex]: real and imaginary part. *)
Definition complex : Type := (Q * Q)%type.

Definition cadd (a b : complex) : complex :=
  (a.1 + b.1, a.2 + b.2)%Q.

Definition cmul (a b : complex) : complex :=
  (a.1 * b.1 - a.2 * b.2, a.1 * b.2 + a.2 * b.1)%Q.

(** [abs(z) > 2].  [abs] is the modulus sqrt(re^2 + im^2); both sides are
    non-negative, so the test is re^2 + im^2 > 4. *)
Definition abs_gt_2 (z : complex) : bool :=
  Qgtb (z.1 * z.1 + z.2 * z.2) 4.

(** The body of [for n in range(max_iter)]: [ns] is what is left of the
    range. *)
Fixpoint mandelbrot_loop (ns : list Z) (z c : complex) (max_iter : Z) : Z :=
  match ns with
  | [] => max_iter
  | n :: ns' =>
      if abs_gt_2 z then n
      else mandelbrot_loop ns' (cadd (cmul z z) c) c max_iter
  end.

Definition mandelbrot (c : complex) (max_iter : Z) : Z :=
  mandelbrot_loop (range max_iter) c c max_iter.

(** [np.linspace(start, stop, num)]: [num] samples, both end points
    included; a negative [num] raises.  numpy computes
    [arange(0, num) * step + start] with [step = (stop - start) / (num - 1)]
    (and [arange(0, num) * (stop - start) + start] when [num - 1] is not
    positive), then stores [stop] in the last cell when [num > 1]; the
    value stored is the value of the formula there
    ([linspace_last_is_stop]). *)
Definition linspace_sample (start stop : Q) (num i : Z) : Q :=
  let div := num - 1 in
  let delta := (stop - start)%Q in
  if 0 <? div then (inject_Z i * (delta / inject_Z div) + start)%Q
  else (inject_Z i * delta + start)%Q.

Definition linspace (start stop : Q) (num : Z) : option (list Q) :=
  if num <? 0 then None
  else Some (linspace_sample start stop num <$> range num).

(** [mandelbrot_row]: the row is allocated with [np.empty(width)] and
    every cell [row[i]] is assigned once, for [i] in [range(width)]. *)
Definition mandelbrot_row (xmin xmax ymin ymax : Q) (width height max_iter : Z)
    (y : Z) : option (list Z) :=
  r1 ← linspace xmin xmax width;
  r2 ← linspace ymin ymax height;
  mapM (fun i : Z =>
          re ← py_index r1 i;
          im ← py_index r2 y;
          Some (mandelbrot (re, im) max_iter)) (range width).

(** [ThreadPoolExecutor.map(fn, iterable)]: one future per element of
    [iterable]; the pool completes the futures in some order ([order]
    lists the indices in the order of completion), each result is stored
    in the future of its own index, and the results are handed back in
    the order of [iterable].  A future that raised re-raises when its
    result is taken. *)
Definition complete_future {A B} (fn : A -> option B) (iterable : list A)
    (futures : list (option (option B))) (i : nat)
    : list (option (option B)) :=
  match iterable !! i with
  | Some a => <[i := Some (fn a)]> futures
  | None => futures
  end.

Definition executor_map {A B} (fn : A -> option B) (iterable : list A)
    (order : list nat) : option (list B) :=
  let futures :=
    foldl (complete_future fn iterable)
          (replicate (length iterable) None) order in
  mapM (fun fut : option (option B) => mjoin fut) futures.

Definition mandelbrot_set (xmin xmax ymin ymax : Q) (width height max_iter : Z)
    (order : list nat) : option (list (list Z)) :=
  executor_map
    (fun y => mandelbrot_row xmin xmax ymin ymax width height max_iter y)
    (range height) order.

(** [mandelbrot_image[y, x]] *)
Definition image_at (mandelbrot_image : list (list Z)) (y x : Z) : option Z :=
  row ← py_index mandelbrot_image y; py_index row x.

Definition Color : Type := (Z * Z * Z)%type.

(** The grey level of a cell: [int(v / MAX_ITER * 255)] on the three
    channels. *)
Definition color_of (v : Z) : Color :=
  let color_value := (inject_Z v / inject_Z MAX_ITER * 255)%Q in
  (Qtrunc color_value, Qtrunc color_value, Qtrunc color_value).

(** [draw_mandelbrot]: the surface is the map from pixel positions to
    their colour; [set_at] overwrites one position. *)
Definition draw_mandelbrot (surface : gmap (Z * Z) Color)
    (mandelbrot_image : list (list Z)) (width height : Z)
    : option (gmap (Z * Z) Color) :=
  for_in (range width) (fun x surface =>
    for_in (range height) (fun y surface =>
      v ← image_at mandelbrot_image y x;
      Some (<[(x, y) := color_of v]> surface)) surface) surface.

End SetPy.

(** ** gpuset.py *)
Module GpuSet.

Definition WIDTH : Z := 800.
Definition HEIGHT : Z := 600.
Definition INITIAL_MAX_ITER : Z := 256.
Definition ZOOM_FACTOR : Q := 12 # 10.
Definition MIN_RENDER_WIDTH : Z := 100.
Definition MIN_RENDER_HEIGHT : Z := 75.
Definition MAX_RENDER_WIDTH : Z := WIDTH.
Definition MAX_RENDER_HEIGHT : Z := HEIGHT.

(** The [for (iter = 0; iter < max_iter; iter++)] loop of the OpenCL
    kernel; [fuel] is the number of iterations still allowed,
    [max_iter - iter]. *)
Fixpoint kernel_loop (fuel : nat) (iter : Z) (real imag c_real c_imag : Q) : Z :=
  match fuel with
  | O => iter
  | S fuel' =>
      let real2 := (real * real)%Q in
      let imag2 := (imag * imag)%Q in
      if Qgtb (real2 + imag2) 4 then iter
      else
        let imag' := (2 * real * imag + c_imag)%Q in
        let real' := (real2 - imag2 + c_real)%Q in
        kernel_loop fuel' (iter + 1) real' imag' c_real c_imag
  end.

(** The value the kernel stores for the point [real + imag i]. *)
Definition escape_iter (real imag : Q) (max_iter : Z) : Z :=
  kernel_loop (Z.to_nat max_iter) 0 real imag real imag.

(** One work-item of [__kernel void mandelbrot]: the value written to
    [output[gid]].  [%] and [/] on C ints truncate. *)
Definition kernel (width height : Z) (xmin xmax ymin ymax : Q)
    (max_iter gid : Z) : Z :=
  let x := Z.rem gid width in
  let y := Z.quot gid width in
  let real := (xmin + (xmax - xmin) * inject_Z x / inject_Z width)%Q in
  let imag := (ymin + (ymax - ymin) * inject_Z y / inject_Z height)%Q in
  escape_iter real imag max_iter.

(** Whether [mandelbrot_set] raises before the kernel runs:
    [np.empty((height, width))] raises on a negative dimension, and
    [cl.Buffer] raises on a size of 0 bytes, the size of an array with no
    cell. *)
Definition mandelbrot_set_raises (width height : Z) : bool :=
  (width <? 0) || (height <? 0) || (width * height =? 0).

(** [mandelbrot_set]: unless the allocation of the array or of the buffer
    raises, the kernel runs once for every [gid] of the global range
    [width * height], each work-item writing its own cell of the buffer;
    the buffer is copied back into the [height] by [width] array, whose
    row [y] is the slice of the buffer from [y * width]. *)
Definition mandelbrot_set (xmin xmax ymin ymax : Q) (width height max_iter : Z)
    : option (list (list Z)) :=
  if mandelbrot_set_raises width height then None
  else
    let output_buffer :=
      kernel width height xmin xmax ymin ymax max_iter
        <$> range (width * height) in
    Some ((fun y : Z =>
             take (Z.to_nat width) (drop (Z.to_nat (y * width)) output_buffer))
            <$> range height).

(** [mandelbrot_image[y, x]] *)
Definition image_at (mandelbrot_image : list (list Z)) (y x : Z) : option Z :=
  row ← py_index mandelbrot_image y; py_index row x.

Definition Color : Type := (Z * Z * Z)%type.

(** The colour [draw_mandelbrot] gives to a cell. *)
Definition color_of (iter_count max_iter : Z) : Color :=
  if iter_count =? max_iter then (0, 0, 0)
  else (iter_count `mod` 256, (iter_count * 5) `mod` 256,
        (iter_count * 13) `mod` 256).

(** [draw_mandelbrot]: the surface is the map from pixel positions to
    their colour; [set_at] overwrites one position. *)
Definition draw_mandelbrot (surface : gmap (Z * Z) Color)
    (mandelbrot_image : list (list Z)) (width height max_iter : Z)
    : option (gmap (Z * Z) Color) :=
  for_in (range width) (fun x surface =>
    for_in (range height) (fun y surface =>
      iter_count ← image_at mandelbrot_image y x;
      Some (<[(x, y) := color_of iter_count max_iter]> surface)) surface)
    surface.

(** The global view and render state that [auto_zoom] updates. *)
Record View : Type := mkView {
  xmin : Q; xmax : Q; ymin : Q; ymax : Q;
  RENDER_WIDTH : Z; RENDER_HEIGHT : Z; MAX_ITER : Z
}.

(** The globals as the module initialises them. *)
Definition initial_view : View :=
  {| xmin := -2; xmax := 1; ymin := - (15 # 10); ymax := 15 # 10;
     RENDER_WIDTH := 800; RENDER_HEIGHT := 600;
     MAX_ITER := INITIAL_MAX_ITER |}.

(** [auto_zoom(zoom_factor, mouse_x, mouse_y)] as a function on the
    globals; the division by [zoom_factor] raises when it is zero.  The
    fresh [pygame.Surface] it returns has the new render size and is left
    out. *)
Definition auto_zoom (zoom_factor : Q) (mouse_x mouse_y : Z) (v : View)
    : option View :=
  let x_center :=
    (xmin v + (xmax v - xmin v) * inject_Z mouse_x / inject_Z WIDTH)%Q in
  let y_center :=
    (ymin v + (ymax v - ymin v) * inject_Z mouse_y / inject_Z HEIGHT)%Q in
  if Qeqb zoom_factor 0 then None
  else
    let width := ((xmax v - xmin v) / zoom_factor)%Q in
    let height := ((ymax v - ymin v) / zoom_factor)%Q in
    Some {| xmin := x_center - width / 2; xmax := x_center + width / 2;
            ymin := y_center - height / 2; ymax := y_center + height / 2;
            RENDER_WIDTH :=
              Z.min MAX_RENDER_WIDTH
                (Qtrunc (inject_Z (RENDER_WIDTH v) * zoom_factor));
            RENDER_HEIGHT :=
              Z.min MAX_RENDER_HEIGHT
                (Qtrunc (inject_Z (RENDER_HEIGHT v) * zoom_factor));
            MAX_ITER :=
              Z.min 2048 (Qtrunc (inject_Z (MAX_ITER v) * zoom_factor)) |}.

(** *** The render thread and its queue *)

(** What [render_queue] holds: [True] asks for a render, [None] tells the
    worker to leave its loop. *)
Inductive task : Type := TaskRender | TaskStop.

#[global] Instance task_eq_dec : EqDecision task.
Proof. solve_decision. Defined.

(** Where the render thread is: not created yet, blocked in
    [render_queue.get()], between the [get] and the end of its
    computation of a view, or returned from [render_worker]. *)
Inductive thread_state : Type :=
| NoThread
| Waiting
| Rendering (v : View)
| Exited.

Record Program : Type := mkProgram {
  view : View;
  render_queue : list task;
  render_thread : thread_state;
  is_rendering : bool;
  needs_update : bool;
  next_render_surface : option View;
  computations : list View
}.

(** [computations] records, in order, the arguments of every call of
    [mandelbrot_set] the worker has made; [next_render_surface] names the
    view whose picture is ready for the display loop. *)

Definition initial_program : Program :=
  {| view := initial_view; render_queue := []; render_thread := NoThread;
     is_rendering := false; needs_update := false;
     next_render_surface := None; computations := [] |}.

Definition thread_is_alive (t : thread_state) : bool :=
  match t with
  | Waiting | Rendering _ => true
  | NoThread | Exited => false
  end.

(** [start_new_render()] *)
Definition start_new_render (p : Program) : Program :=
  {| view := view p;
     render_queue := render_queue p ++ [TaskRender];
     render_thread :=
       if thread_is_alive (render_thread p) then render_thread p else Waiting;
     is_rendering := is_rendering p;
     needs_update := true;
     next_render_surface := next_render_surface p;
     computations := computations p |}.

(** The steps of the two threads.  The main thread zooms (a handler of
    the event loop: nothing happens while [is_rendering], otherwise
    [auto_zoom] then [start_new_render]), asks for a render, or puts the
    [None] task at shutdown.  The worker takes the head of the queue and,
    for a render task, sets [is_rendering] and calls [mandelbrot_set] on
    the globals as they are at that moment; later it publishes the
    surface and clears [is_rendering]. *)
Inductive event : Type :=
| EvZoom (zoom_factor : Q) (mouse_x mouse_y : Z)
| EvStartNewRender
| EvQuit
| EvWorkerGet
| EvWorkerDone.

(** One step; [None] when the step cannot be taken in this state (the
    worker is blocked or busy, or [auto_zoom] raised). *)
Definition step (e : event) (p : Program) : option Program :=
  match e with
  | EvZoom zoom_factor mouse_x mouse_y =>
      if is_rendering p then Some p
      else
        v ← auto_zoom zoom_factor mouse_x mouse_y (view p);
        Some (start_new_render
                {| view := v; render_queue := render_queue p;
                   render_thread := render_thread p;
                   is_rendering := is_rendering p;
                   needs_update := needs_update p;
                   next_render_surface := next_render_surface p;
                   computations := computations p |})
  | EvStartNewRender => Some (start_new_render p)
  | EvQuit =>
      Some {| view := view p;
              render_queue := render_queue p ++ [TaskStop];
              render_thread := render_thread p;
              is_rendering := is_rendering p;
              needs_update := needs_update p;
              next_render_surface := next_render_surface p;
              computations := computations p |}
  | EvWorkerGet =>
      match render_thread p, render_queue p with
      | Waiting, TaskStop :: q =>
          Some {| view := view p; render_queue := q;
                  render_thread := Exited;
                  is_rendering := is_rendering p;
                  needs_update := needs_update p;
                  next_render_surface := next_render_surface p;
                  computations := computations p |}
      | Waiting, TaskRender :: q =>
          Some {| view := view p; render_queue := q;
                  render_thread := Rendering (view p);
                  is_rendering := true;
                  needs_update := needs_update p;
                  next_render_surface := next_render_surface p;
                  computations := computations p ++ [view p] |}
      | _, _ => None
      end
  | EvWorkerDone =>
      match render_thread p with
      | Rendering v =>
          Some {| view := view p; render_queue := render_queue p;
                  render_thread := Waiting;
                  is_rendering := false;
                  needs_update := needs_update p;
                  next_render_surface := Some v;
                  computations := computations p |}
      | _ => None
      end
  end.

(** A schedule: the steps of both threads in the order they happen. *)
Fixpoint run (es : list event) (p : Program) : option Program :=
  match es with
  | [] => Some p
  | e :: es' => p' ← step e p; run es' p'
  end.

Definition thread_is_computing (t : thread_state) : bool :=
  match t with
  | Rendering _ => true
  | NoThread | Waiting | Exited => false
  end.

(** Nothing queued and no computation under way. *)
Definition idle (p : Program) : Prop :=
  render_queue p = [] /\ is_rendering p = false /\
  thread_is_computing (render_thread p) = false.

#[global] Instance idle_dec (p : Program) : Decision (idle p).
Proof. unfold idle. apply _. Defined.

(** Render tasks waiting in the queue. *)
Definition pending (p : Program) : nat :=
  length (filter (fun t => t = TaskRender) (render_queue p)).

(** Render requests a schedule submits from state [p] on. *)
Fixpoint submitted (es : list event) (p : Program) : nat :=
  match es with
  | [] => 0
  | e :: es' =>
      let here :=
        match e with
        | EvStartNewRender => 1
        | EvZoom _ _ _ => if is_rendering p then 0 else 1
        | _ => 0
        end%nat in
      match step e p with
      | Some p' => (here + submitted es' p')%nat
      | None => 0%nat
      end
  end.

End GpuSet.

(** ** The zoom of gpuset.py on IEEE binary64

    The same [auto_zoom], with the plane bounds as the binary64 numbers
    Python computes with: every [+], [-], [*] and [/] rounds to nearest,
    ties to even. *)
Module GpuSet64.

(** [float(n)] of a Python int, as the mixed operations [float * int] and
    [int * float] apply it: the nearest binary64 number, [OverflowError]
    beyond the largest one. *)
Definition float_of_int (n : Z) : option float :=
  let x := SF2Prim (binary_normalize prec emax n 0 false) in
  if is_infinity x then None else Some x.

(** [int(x)] of a float: truncation towards zero; raises on an infinity
    or a NaN. *)
Definition int_of_float (x : float) : option Z :=
  match Prim2SF x with
  | S754_zero _ => Some 0
  | S754_finite s m e =>
      let a := if 0 <=? e then Z.pos m * 2 ^ e else Z.pos m `div` 2 ^ (- e) in
      Some (if s then - a else a)
  | S754_infinity _ | S754_nan => None
  end.

(** [x / y] on floats: [ZeroDivisionError] when [y] is zero. *)
Definition truediv (x y : float) : option float :=
  if (y =? 0)%float then None else Some (x / y)%float.

Definition WIDTH : Z := 800.
Definition HEIGHT : Z := 600.
Definition INITIAL_MAX_ITER : Z := 256.
Definition ZOOM_FACTOR : float := 1.2%float.
Definition MAX_RENDER_WIDTH : Z := WIDTH.
Definition MAX_RENDER_HEIGHT : Z := HEIGHT.

Record View : Type := mkView {
  xmin : float; xmax : float; ymin : float; ymax : float;
  RENDER_WIDTH : Z; RENDER_HEIGHT : Z; MAX_ITER : Z
}.

(** The globals as the module initialises them. *)
Definition initial_view : View :=
  {| xmin := (-2)%float; xmax := 1%float;
     ymin := (-1.5)%float; ymax := 1.5%float;
     RENDER_WIDTH := 800; RENDER_HEIGHT := 600;
     MAX_ITER := INITIAL_MAX_ITER |}.

(** [auto_zoom(zoom_factor, mouse_x, mouse_y)] on the globals. *)
Definition auto_zoom (zoom_factor : float) (mouse_x mouse_y : Z) (v : View)
    : option View :=
  x ← float_of_int mouse_x;
  w ← float_of_int WIDTH;
  x_offset ← truediv ((xmax v - xmin v) * x)%float w;
  let x_center := (xmin v + x_offset)%float in
  y ← float_of_int mouse_y;
  h ← float_of_int HEIGHT;
  y_offset ← truediv ((ymax v - ymin v) * y)%float h;
  let y_center := (ymin v + y_offset)%float in
  width ← truediv (xmax v - xmin v)%float zoom_factor;
  height ← truediv (ymax v - ymin v)%float zoom_factor;
  rw ← float_of_int (RENDER_WIDTH v);
  rw' ← int_of_float (rw * zoom_factor)%float;
  rh ← float_of_int (RENDER_HEIGHT v);
  rh' ← int_of_float (rh * zoom_factor)%float;
  mi ← float_of_int (MAX_ITER v);
  mi' ← int_of_float (mi * zoom_factor)%float;
  Some {| xmin := (x_center - width / 2)%float;
          xmax := (x_center + width / 2)%float;
          ymin := (y_center - height / 2)%float;
          ymax := (y_center + height / 2)%float;
          RENDER_WIDTH := Z.min MAX_RENDER_WIDTH rw';
          RENDER_HEIGHT := Z.min MAX_RENDER_HEIGHT rh';
          MAX_ITER := Z.min 2048 mi' |}.

(** [auto_zoom] applied with one factor at each of a list of positions. *)
Definition zoom_many (zoom_factor : float) (ps : list (Z * Z)) (v : View)
    : option View :=
  for_in ps (fun pos v => auto_zoom zoom_factor pos.1 pos.2 v) v.

End GpuSet64.


(** ** What the specification says, where it words an operation of its own *)
Module Spec.

(** [clamp(x, [lo, hi])] *)
Definition clamp (lo hi x : Z) : Z := Z.max lo (Z.min hi x).

(** [round(x)]: the nearest integer (halves upwards). *)
Definition round (x : Q) : Z := Qfloor (x + (1 # 2)).

(** The pixel-to-plane interpolation of the specification:
    [lo + (hi - lo) * i / n]. *)
Definition interpolate (lo hi : Q) (i n : Z) : Q :=
  (lo + (hi - lo) * inject_Z i / inject_Z n)%Q.

(** The resolution and the iteration cap the specification gives to a
    zoom. *)
Definition new_width (v : GpuSet.View) (factor : Q) : Z :=
  clamp GpuSet.MIN_RENDER_WIDTH GpuSet.MAX_RENDER_WIDTH
    (round (inject_Z (GpuSet.RENDER_WIDTH v) * factor)).

Definition new_height (v : GpuSet.View) (factor : Q) : Z :=
  clamp GpuSet.MIN_RENDER_HEIGHT GpuSet.MAX_RENDER_HEIGHT
    (round (inject_Z (GpuSet.RENDER_HEIGHT v) * factor)).

Definition new_max_iter (v : GpuSet.View) (factor : Q) : Z :=
  clamp GpuSet.INITIAL_MAX_ITER 2048
    (round (inject_Z (GpuSet.MAX_ITER v) * factor)).

(** [x ≈ y] for bounds written with three decimals: equal to within one
    thousandth. *)
Definition approx (x y : Q) : Prop := (Qabs (x - y) <= 1 # 1000)%Q.

(** The naive sequential evaluator: the sample coordinates of the
    thread-pool renderer, then the per-point kernel on every pixel, row
    after row and, in a row, column after column. *)
Definition sequential_set (xmin xmax ymin ymax : Q) (width height max_iter : Z)
    : option (list (list Z)) :=
  r1 ← SetPy.linspace xmin xmax width;
  r2 ← SetPy.linspace ymin ymax height;
  mapM (fun y : Z =>
          mapM (fun x : Z =>
                  re ← py_index r1 x;
                  im ← py_index r2 y;
                  Some (SetPy.mandelbrot (re, im) max_iter)) (range width))
       (range height).

End Spec.

(** ** Properties of grids *)

(** An image of [height] rows by [width] columns. *)
Definition has_shape (grid : list (list Z)) (width height : Z) : Prop :=
  length grid = Z.to_nat height /\
  Forall (fun row => length row = Z.to_nat width) grid.

(** A grid of [height] rows by [width] columns with every cell in
    [[0, max_iter]]. *)
Definition well_shaped (grid : list (list Z)) (width height max_iter : Z) : Prop :=
  length grid = Z.to_nat height /\
  Forall (fun row =>
            length row = Z.to_nat width /\
            Forall (fun cell => 0 <= cell <= max_iter) row) grid.

#[global] Instance has_shape_dec (grid : list (list Z)) (width height : Z) :
  Decision (has_shape grid width height).
Proof. unfold has_shape. apply _. Defined.

#[global] Instance well_shaped_dec (grid : list (list Z))
    (width height max_iter : Z) :
  Decision (well_shaped grid width height max_iter).
Proof. unfold well_shaped. apply _. Defined.

(** The surface after the [set_at] calls of one column [x] of pixels,
    [col x y] being the colour of pixel [(x, y)], and after those of all
    the columns. *)
Definition paint_column {C} (col : Z -> Z -> C) (x : Z) (ys : list Z)
    (s : gmap (Z * Z) C) : gmap (Z * Z) C :=
  foldl (fun s y => <[(x, y) := col x y]> s) s ys.

Definition paint {C} (col : Z -> Z -> C) (xs ys : list Z)
    (s : gmap (Z * Z) C) : gmap (Z * Z) C :=
  foldl (fun s x => paint_column col x ys s) s xs.

(** ** The event loops *)

(** The events of [pygame.event.get()] the two programs look at. *)
Inductive pygame_event : Type :=
| QUIT
| KEYDOWN (key : Z)
| MOUSEMOTION (pos : Z * Z)
| MOUSEBUTTONDOWN (button : Z) (pos : Z * Z)
| MOUSEWHEEL (y : Z).

Definition K_SPACE : Z := 32.

(** *** The main loop of set.py *)
Module SetPyMain.

(** The globals of the loop. *)
Record State : Type := mkState {
  xmin : Q; xmax : Q; ymin : Q; ymax : Q;
  running : bool; needs_update : bool
}.

Definition initial_state : State :=
  {| xmin := -2; xmax := 1; ymin := - (15 # 10); ymax := 15 # 10;
     running := true; needs_update := true |}.

(** A click of the left ([zoom_in]) or of the right button at [pos]: the
    position is scaled to the render size, the new centre is read from
    the samples of [np.linspace], the extents are divided or multiplied by
    [ZOOM_FACTOR]. *)
Definition click_zoom (zoom_in : bool) (pos : Z * Z) (s : State) : option State :=
  let mouse_x := (pos.1 * SetPy.RENDER_WIDTH) `div` SetPy.WIDTH in
  let mouse_y := (pos.2 * SetPy.RENDER_HEIGHT) `div` SetPy.HEIGHT in
  r1 ← SetPy.linspace (xmin s) (xmax s) SetPy.RENDER_WIDTH;
  r2 ← SetPy.linspace (ymin s) (ymax s) SetPy.RENDER_HEIGHT;
  x_center ← py_index r1 mouse_x;
  y_center ← py_index r2 mouse_y;
  let width :=
    (if zoom_in then (xmax s - xmin s) / SetPy.ZOOM_FACTOR
     else (xmax s - xmin s) * SetPy.ZOOM_FACTOR)%Q in
  let height :=
    (if zoom_in then (ymax s - ymin s) / SetPy.ZOOM_FACTOR
     else (ymax s - ymin s) * SetPy.ZOOM_FACTOR)%Q in
  Some {| xmin := x_center - width / 2; xmax := x_center + width / 2;
          ymin := y_center - height / 2; ymax := y_center + height / 2;
          running := running s; needs_update := true |}.

(** A turn of the wheel up ([zoom_in]) or down: the same around the
    centre of the view. *)
Definition wheel_zoom (zoom_in : bool) (s : State) : State :=
  let x_center := ((xmin s + xmax s) / 2)%Q in
  let y_center := ((ymin s + ymax s) / 2)%Q in
  let width :=
    (if zoom_in then (xmax s - xmin s) / SetPy.ZOOM_FACTOR
     else (xmax s - xmin s) * SetPy.ZOOM_FACTOR)%Q in
  let height :=
    (if zoom_in then (ymax s - ymin s) / SetPy.ZOOM_FACTOR
     else (ymax s - ymin s) * SetPy.ZOOM_FACTOR)%Q in
  {| xmin := x_center - width / 2; xmax := x_center + width / 2;
     ymin := y_center - height / 2; ymax := y_center + height / 2;
     running := running s; needs_update := true |}.

(** The body of [for event in pygame.event.get()]. *)
Definition on_event (e : pygame_event) (s : State) : option State :=
  match e with
  | QUIT =>
      Some {| xmin := xmin s; xmax := xmax s; ymin := ymin s; ymax := ymax s;
              running := false; needs_update := needs_update s |}
  | MOUSEBUTTONDOWN button pos =>
      if button =? 1 then click_zoom true pos s
      else if button =? 3 then click_zoom false pos s
      else Some s
  | MOUSEWHEEL y =>
      if 0 <? y then Some (wheel_zoom true s)
      else if y <? 0 then Some (wheel_zoom false s)
      else Some s
  | KEYDOWN _ | MOUSEMOTION _ => Some s
  end.

(** The [if needs_update:] block: the grid of the view is computed at the
    render size and drawn on [render_surface]; [order] is the order in
    which the pool completes the rows. *)
Definition update (s : State) (render_surface : gmap (Z * Z) SetPy.Color)
    (order : list nat) : option (State * gmap (Z * Z) SetPy.Color) :=
  if needs_update s then
    mandelbrot_image ←
      SetPy.mandelbrot_set (xmin s) (xmax s) (ymin s) (ymax s)
        SetPy.RENDER_WIDTH SetPy.RENDER_HEIGHT SetPy.MAX_ITER order;
    render_surface' ←
      SetPy.draw_mandelbrot render_surface mandelbrot_image
        SetPy.RENDER_WIDTH SetPy.RENDER_HEIGHT;
    Some ({| xmin := xmin s; xmax := xmax s; ymin := ymin s; ymax := ymax s;
             running := running s; needs_update := false |},
          render_surface')
  else Some (s, render_surface).



End SetPyMain.

(** *** The main loop and the worker's body of gpuset.py *)
Module GpuMain.


(** [auto_zoom] applied with one factor at each of a list of positions. *)
Definition zoom_many (zoom_factor : Q) (ps : list (Z * Z)) (v : GpuSet.View)
    : option GpuSet.View :=
  for_in ps (fun pos v => GpuSet.auto_zoom zoom_factor pos.1 pos.2 v) v.

(** What a surface of the program is: a fresh one of the given size, as
    the module creates it and as [auto_zoom] returns it, or the surface
    the worker creates at line 111 while the globals hold the view [v]
    and on which [draw_mandelbrot] then paints the picture of [v]. *)
Inductive surface : Type :=
| Blank (width height : Z)
| Picture (v : GpuSet.View).

(** Where the thread of [render_worker] is, statement by statement: not
    created; at [task = render_queue.get()]; with a render task taken, at
    [is_rendering = True]; at the call of [mandelbrot_set]; at
    [next_render_surface = pygame.Surface(...)]; at the call of
    [draw_mandelbrot], its arguments not yet read; inside
    [draw_mandelbrot], before [is_rendering = False]; returned on the
    task [None]; ended by an exception. *)
Inductive worker : Type :=
| NotStarted
| AtGet
| AtFlag
| AtCompute
| AtSurface
| AtCall
| Drawing
| Returned
| Died.

(** The globals of gpuset.py the two threads share, and those of the
    main loop.  [next_mandelbrot_image] names the view whose grid it
    holds; [computations] records, in order, the views of the calls of
    [mandelbrot_set] that returned. *)
Record Main : Type := mkMain {
  view : GpuSet.View;
  render_queue : list GpuSet.task;
  render_thread : worker;
  is_rendering : bool;
  needs_update : bool;
  next_mandelbrot_image : option GpuSet.View;
  next_render_surface : option surface;
  render_surface : surface;
  auto_zooming : bool;
  mouse : Z * Z;
  running : bool;
  computations : list GpuSet.View
}.

(** Assignment to one global. *)
Definition set_view (x : GpuSet.View) (m : Main) : Main :=
  let 'mkMain _ q t r u i n s z p g c := m in
  mkMain x q t r u i n s z p g c.

Definition set_render_queue (x : list GpuSet.task) (m : Main) : Main :=
  let 'mkMain v _ t r u i n s z p g c := m in
  mkMain v x t r u i n s z p g c.

Definition set_render_thread (x : worker) (m : Main) : Main :=
  let 'mkMain v q _ r u i n s z p g c := m in
  mkMain v q x r u i n s z p g c.

Definition set_is_rendering (x : bool) (m : Main) : Main :=
  let 'mkMain v q t _ u i n s z p g c := m in
  mkMain v q t x u i n s z p g c.

Definition set_needs_update (x : bool) (m : Main) : Main :=
  let 'mkMain v q t r _ i n s z p g c := m in
  mkMain v q t r x i n s z p g c.

Definition set_next_mandelbrot_image (x : option GpuSet.View) (m : Main) : Main :=
  let 'mkMain v q t r u _ n s z p g c := m in
  mkMain v q t r u x n s z p g c.

Definition set_next_render_surface (x : option surface) (m : Main) : Main :=
  let 'mkMain v q t r u i _ s z p g c := m in
  mkMain v q t r u i x s z p g c.

Definition set_render_surface (x : surface) (m : Main) : Main :=
  let 'mkMain v q t r u i n _ z p g c := m in
  mkMain v q t r u i n x z p g c.

Definition set_auto_zooming (x : bool) (m : Main) : Main :=
  let 'mkMain v q t r u i n s _ p g c := m in
  mkMain v q t r u i n s x p g c.

Definition set_mouse (x : Z * Z) (m : Main) : Main :=
  let 'mkMain v q t r u i n s z _ g c := m in
  mkMain v q t r u i n s z x g c.

Definition set_running (x : bool) (m : Main) : Main :=
  let 'mkMain v q t r u i n s z p _ c := m in
  mkMain v q t r u i n s z p x c.

Definition set_computations (x : list GpuSet.View) (m : Main) : Main :=
  let 'mkMain v q t r u i n s z p g _ := m in
  mkMain v q t r u i n s z p g x.

(** The globals when the module has initialised them, before it asks for
    the first render. *)
Definition initial_globals : Main :=
  {| view := GpuSet.initial_view; render_queue := [];
     render_thread := NotStarted; is_rendering := false;
     needs_update := false; next_mandelbrot_image := None;
     next_render_surface := None; render_surface := Blank 800 600;
     auto_zooming := false;
     mouse := (GpuSet.WIDTH `div` 2, GpuSet.HEIGHT `div` 2);
     running := true; computations := [] |}.

Definition thread_is_alive (w : worker) : bool :=
  match w with
  | NotStarted | Returned | Died => false
  | AtGet | AtFlag | AtCompute | AtSurface | AtCall | Drawing => true
  end.

(** [start_new_render()]: a thread is started when there is none alive,
    then a render task is put on the queue. *)
Definition start_new_render (m : Main) : Main :=
  let m := if thread_is_alive (render_thread m) then m
           else set_render_thread AtGet m in
  set_needs_update true (set_render_queue (render_queue m ++ [GpuSet.TaskRender]) m).

(** The state when the loop is entered: the first render has been asked
    for, the cursor defaults to the centre of the window. *)
Definition initial_main : Main := start_new_render initial_globals.

(** [render_surface = auto_zoom(zoom_factor, *pos)] then
    [start_new_render()]; [pygame.Surface] raises on a negative size. *)
Definition zoom_at (zoom_factor : Q) (pos : Z * Z) (m : Main) : option Main :=
  v ← GpuSet.auto_zoom zoom_factor pos.1 pos.2 (view m);
  if (GpuSet.RENDER_WIDTH v <? 0) || (GpuSet.RENDER_HEIGHT v <? 0) then None
  else
    Some (start_new_render
            (set_render_surface
               (Blank (GpuSet.RENDER_WIDTH v) (GpuSet.RENDER_HEIGHT v))
               (set_view v m))).

(** The body of [for event in pygame.event.get()]. *)
Definition on_event (e : pygame_event) (m : Main) : option Main :=
  match e with
  | QUIT => Some (set_running false m)
  | KEYDOWN key =>
      if key =? K_SPACE then Some (set_auto_zooming (negb (auto_zooming m)) m)
      else Some m
  | MOUSEMOTION pos => Some (set_mouse pos m)
  | MOUSEBUTTONDOWN button pos =>
      if (button =? 1) && negb (is_rendering m) then
        zoom_at GpuSet.ZOOM_FACTOR pos m
      else if (button =? 3) && negb (is_rendering m) then
        zoom_at (1 / GpuSet.ZOOM_FACTOR) pos m
      else Some m
  | MOUSEWHEEL y =>
      if negb (is_rendering m) then
        if 0 <? y then zoom_at GpuSet.ZOOM_FACTOR (mouse m) m
        else if y <? 0 then zoom_at (1 / GpuSet.ZOOM_FACTOR) (mouse m) m
        else Some m
      else Some m
  end.

(** [if auto_zooming and not is_rendering:] *)
Definition auto_zoom_tick (m : Main) : option Main :=
  if auto_zooming m && negb (is_rendering m) then
    zoom_at GpuSet.ZOOM_FACTOR (mouse m) m
  else Some m.

(** [if next_render_surface is not None:] the surface is taken for
    display, the two [next_] globals are cleared and, when [is_rendering]
    is not set and auto-zoom is off, a new render is asked for. *)
Definition present (m : Main) : Main :=
  match next_render_surface m with
  | None => m
  | Some s =>
      let m' :=
        set_needs_update false
          (set_next_mandelbrot_image None
             (set_next_render_surface None (set_render_surface s m))) in
      if negb (is_rendering m) && negb (auto_zooming m)
      then start_new_render m' else m'
  end.

(** The next statement of [render_worker]; [None] when the thread cannot
    move: it is blocked on the empty queue, or it is not alive.  An
    exception ends the thread where it is raised, so that [is_rendering]
    stays as it was.  [draw_mandelbrot] is called on the globals
    [next_render_surface] and [next_mandelbrot_image] as they are at the
    call: its first pixel raises when one of them is [None] by then, and
    a pixel outside the grid raises when the grid is smaller than the
    render size. *)
Definition worker_step (m : Main) : option Main :=
  match render_thread m with
  | AtGet =>
      match render_queue m with
      | [] => None
      | GpuSet.TaskStop :: q =>
          Some (set_render_thread Returned (set_render_queue q m))
      | GpuSet.TaskRender :: q =>
          Some (set_render_thread AtFlag (set_render_queue q m))
      end
  | AtFlag => Some (set_render_thread AtCompute (set_is_rendering true m))
  | AtCompute =>
      if GpuSet.mandelbrot_set_raises (GpuSet.RENDER_WIDTH (view m))
           (GpuSet.RENDER_HEIGHT (view m))
      then Some (set_render_thread Died m)
      else
        Some (set_render_thread AtSurface
                (set_next_mandelbrot_image (Some (view m))
                   (set_computations (computations m ++ [view m]) m)))
  | AtSurface =>
      if (GpuSet.RENDER_WIDTH (view m) <? 0)
         || (GpuSet.RENDER_HEIGHT (view m) <? 0)
      then Some (set_render_thread Died m)
      else
        Some (set_render_thread AtCall
                (set_next_render_surface (Some (Picture (view m))) m))
  | AtCall =>
      if (0 <? GpuSet.RENDER_WIDTH (view m))
         && (0 <? GpuSet.RENDER_HEIGHT (view m))
      then
        match next_mandelbrot_image m, next_render_surface m with
        | Some v, Some _ =>
            if (GpuSet.RENDER_WIDTH (view m) <=? GpuSet.RENDER_WIDTH v)
               && (GpuSet.RENDER_HEIGHT (view m) <=? GpuSet.RENDER_HEIGHT v)
            then Some (set_render_thread Drawing m)
            else Some (set_render_thread Died m)
        | _, _ => Some (set_render_thread Died m)
        end
      else Some (set_render_thread Drawing m)
  | Drawing => Some (set_render_thread AtGet (set_is_rendering false m))
  | NotStarted | Returned | Died => None
  end.

(** The steps of the program: the main thread handles an event, runs the
    auto-zoom test or the display test of its loop body, or puts the task
    [None] once the loop is left; the worker runs its next statement.
    Each handler and each test of the main loop is one step. *)
Inductive action : Type :=
| ActEvent (e : pygame_event)
| ActAutoZoom
| ActPresent
| ActCleanup
| ActWorker.

Definition act (a : action) (m : Main) : option Main :=
  match a with
  | ActEvent e => on_event e m
  | ActAutoZoom => auto_zoom_tick m
  | ActPresent => Some (present m)
  | ActCleanup => Some (set_render_queue (render_queue m ++ [GpuSet.TaskStop]) m)
  | ActWorker => worker_step m
  end.

(** A schedule: the steps of both threads in the order they happen. *)
Definition run (acts : list action) (m : Main) : option Main :=
  for_in acts act m.

(** The resolution within the window size, the cap within its ceiling. *)
Definition view_in_range (v : GpuSet.View) : Prop :=
  0 <= GpuSet.RENDER_WIDTH v <= GpuSet.MAX_RENDER_WIDTH /\
  0 <= GpuSet.RENDER_HEIGHT v <= GpuSet.MAX_RENDER_HEIGHT /\
  0 <= GpuSet.MAX_ITER v <= 2048.

(** The places of the worker between its [is_rendering = True] and its
    [is_rendering = False], and the place where an exception left it. *)
Definition flagged (w : worker) : bool :=
  match w with
  | AtCompute | AtSurface | AtCall | Drawing | Died => true
  | NotStarted | AtGet | AtFlag | Returned => false
  end.

(** Nothing moves without an event: the worker cannot take a step, and
    the auto-zoom test and the display test of the main loop leave the
    globals as they are. *)
Definition at_rest (m : Main) : Prop :=
  worker_step m = None /\ auto_zoom_tick m = Some m /\ present m = m.

End GpuMain.

(** ** Ranges, indexing and comparisons *)

Lemma range_length (n : Z) : length (range n) = Z.to_nat n.
Proof. unfold range. by rewrite length_fmap, length_seq. Qed.

Lemma range_lookup (n : Z) (i : nat) :
  (i < Z.to_nat n)%nat -> range n !! i = Some (Z.of_nat i).
Proof.
  intros Hi. unfold range. rewrite list_lookup_fmap, lookup_seq_lt by done.
  done.
Qed.

Lemma elem_of_range (n i : Z) : i ∈ range n <-> 0 <= i < n.
Proof.
  unfold range. rewrite list_elem_of_fmap. split.
  - intros (k & -> & Hk). apply elem_of_seq in Hk. lia.
  - intros Hi. exists (Z.to_nat i). split; [lia |]. apply elem_of_seq. lia.
Qed.

Lemma py_index_nonneg {A} (l : list A) (i : Z) :
  0 <= i -> py_index l i = l !! Z.to_nat i.
Proof.
  intros Hi. unfold py_index. destruct (Z.ltb_spec i 0); [lia | done].
Qed.

Lemma Qgtb_true (x y : Q) : Qgtb x y = true <-> (y < x)%Q.
Proof.
  unfold Qgtb. rewrite Qgt_alt. destruct (x ?= y)%Q; split; congruence.
Qed.

Lemma Qgtb_false (x y : Q) : Qgtb x y = false <-> (x <= y)%Q.
Proof.
  unfold Qgtb. rewrite Qle_alt. destruct (x ?= y)%Q; split; congruence.
Qed.

Lemma Qeqb_false (x y : Q) : Qeqb x y = false <-> ~ (x == y)%Q.
Proof.
  unfold Qeqb. rewrite Qeq_alt. destruct (x ?= y)%Q; split; congruence.
Qed.

(** ** The escape-time kernels *)

(** The count of [mandelbrot] is one of the indices of the loop or the
    cap. *)
Lemma mandelbrot_loop_bounds (ns : list Z) (z c : SetPy.complex) (max_iter : Z) :
  0 <= max_iter ->
  Forall (fun n => 0 <= n <= max_iter) ns ->
  0 <= SetPy.mandelbrot_loop ns z c max_iter <= max_iter.
Proof.
  intros Hm Hns. revert z.
  induction Hns as [| n ns Hn _ IH]; intros z; simpl; [lia |].
  destruct (SetPy.abs_gt_2 z); [lia | apply IH].
Qed.

Lemma mandelbrot_bounds (c : SetPy.complex) (max_iter : Z) :
  0 <= max_iter -> 0 <= SetPy.mandelbrot c max_iter <= max_iter.
Proof.
  intros Hm. apply mandelbrot_loop_bounds; [done |].
  apply Forall_forall. intros n Hn%elem_of_range. lia.
Qed.

(** The kernel leaves its loop with [iter] between its value at entry and
    that value plus the iterations left. *)
Lemma kernel_loop_bounds (fuel : nat) (iter : Z) (real imag c_real c_imag : Q) :
  iter <= GpuSet.kernel_loop fuel iter real imag c_real c_imag
       <= iter + Z.of_nat fuel.
Proof.
  revert iter real imag.
  induction fuel as [| fuel IH]; intros iter real imag; simpl; [lia |].
  destruct (Qgtb _ _); [lia |].
  specialize (IH (iter + 1)
    (real * real - imag * imag + c_real)%Q (2 * real * imag + c_imag)%Q).
  lia.
Qed.

Lemma escape_iter_bounds (real imag : Q) (max_iter : Z) :
  0 <= max_iter -> 0 <= GpuSet.escape_iter real imag max_iter <= max_iter.
Proof.
  intros Hm. unfold GpuSet.escape_iter.
  pose proof (kernel_loop_bounds (Z.to_nat max_iter) 0 real imag real imag).
  lia.
Qed.

(** A point outside the circle of radius 2 leaves at the first test, before
    any update of [z]. *)
Lemma mandelbrot_escapes_at_once (c : SetPy.complex) (max_iter : Z) :
  0 < max_iter -> (4 < c.1 * c.1 + c.2 * c.2)%Q ->
  SetPy.mandelbrot c max_iter = 0.
Proof.
  intros Hm Hc. unfold SetPy.mandelbrot, range.
  destruct (Z.to_nat max_iter) as [| k] eqn:Hk; [lia |]. simpl.
  unfold SetPy.abs_gt_2. by rewrite (proj2 (Qgtb_true _ _) Hc).
Qed.

Lemma escape_iter_escapes_at_once (real imag : Q) (max_iter : Z) :
  0 < max_iter -> (4 < real * real + imag * imag)%Q ->
  GpuSet.escape_iter real imag max_iter = 0.
Proof.
  intros Hm Hc. unfold GpuSet.escape_iter.
  destruct (Z.to_nat max_iter) as [| k] eqn:Hk; [lia |]. simpl.
  by rewrite (proj2 (Qgtb_true _ _) Hc).
Qed.

(** The test is strict: a point on the circle, or inside it, passes the
    first test and is counted at least once. *)
Lemma mandelbrot_loop_lower (ns : list Z) (z c : SetPy.complex) (max_iter lo : Z) :
  lo <= max_iter -> Forall (fun n => lo <= n) ns ->
  lo <= SetPy.mandelbrot_loop ns z c max_iter.
Proof.
  intros Hm Hns. revert z.
  induction Hns as [| n ns Hn _ IH]; intros z; simpl; [lia |].
  destruct (SetPy.abs_gt_2 z); [lia | apply IH].
Qed.

Lemma mandelbrot_passes_first_test (c : SetPy.complex) (max_iter : Z) :
  0 < max_iter -> (c.1 * c.1 + c.2 * c.2 <= 4)%Q ->
  1 <= SetPy.mandelbrot c max_iter.
Proof.
  intros Hm Hc. unfold SetPy.mandelbrot, range.
  destruct (Z.to_nat max_iter) as [| k] eqn:Hk; [lia |]. simpl.
  unfold SetPy.abs_gt_2 at 1. rewrite (proj2 (Qgtb_false _ _) Hc).
  apply mandelbrot_loop_lower; [lia |].
  apply Forall_forall. intros n (j & -> & Hj%elem_of_seq)%list_elem_of_fmap. lia.
Qed.

Lemma escape_iter_passes_first_test (real imag : Q) (max_iter : Z) :
  0 < max_iter -> (real * real + imag * imag <= 4)%Q ->
  1 <= GpuSet.escape_iter real imag max_iter.
Proof.
  intros Hm Hc. unfold GpuSet.escape_iter.
  destruct (Z.to_nat max_iter) as [| k] eqn:Hk; [lia |]. simpl.
  rewrite (proj2 (Qgtb_false _ _) Hc).
  match goal with |- _ <= GpuSet.kernel_loop ?f ?i ?r ?m ?a ?b =>
    pose proof (kernel_loop_bounds f i r m a b) end.
  lia.
Qed.

(** The origin never leaves: the count is the cap, whatever the cap. *)
Lemma mandelbrot_loop_origin (ns : list Z) (z c : SetPy.complex) (max_iter : Z) :
  (z.1 == 0)%Q -> (z.2 == 0)%Q -> (c.1 == 0)%Q -> (c.2 == 0)%Q ->
  SetPy.mandelbrot_loop ns z c max_iter = max_iter.
Proof.
  intros Hz1 Hz2 Hc1 Hc2. revert z Hz1 Hz2.
  induction ns as [| n ns IH]; intros z Hz1 Hz2; simpl; [done |].
  assert (SetPy.abs_gt_2 z = false) as ->.
  { apply Qgtb_false. rewrite Hz1, Hz2. done. }
  apply IH; unfold SetPy.cadd, SetPy.cmul; simpl;
    rewrite ?Hz1, ?Hz2, ?Hc1, ?Hc2; reflexivity.
Qed.

Lemma kernel_loop_origin (fuel : nat) (iter : Z) (real imag : Q) :
  (real == 0)%Q -> (imag == 0)%Q ->
  GpuSet.kernel_loop fuel iter real imag 0 0 = iter + Z.of_nat fuel.
Proof.
  revert iter real imag.
  induction fuel as [| fuel IH]; intros iter real imag Hr Hi; simpl; [lia |].
  assert (Qgtb (real * real + imag * imag) 4 = false) as ->.
  { apply Qgtb_false. rewrite Hr, Hi. done. }
  rewrite IH; [lia | |]; rewrite ?Hr, ?Hi; reflexivity.
Qed.

(** On the circle itself, at 2+0i, the first test passes, [z] becomes
    6+0i and the second test stops the loop. *)
Example count_on_the_circle :
  SetPy.mandelbrot (2, 0)%Q 256 = 1 /\ GpuSet.escape_iter 2 0 256 = 1.
Proof. split; reflexivity. Qed.

(** C1: with cap 256 the kernels return 0 at 3+0i (the strict test
    [|z|^2 > 4] comes before the update of [z]), at least 1 at 2+0i (4 is
    not greater than 4) and the cap 256 at the origin; this holds for
    [mandelbrot] of set.py and for the OpenCL kernel of gpuset.py. *)
Theorem escape_test_is_strict_and_first :
  SetPy.mandelbrot (3, 0)%Q 256 = 0 /\
  1 <= SetPy.mandelbrot (2, 0)%Q 256 /\
  SetPy.mandelbrot (0, 0)%Q 256 = 256 /\
  GpuSet.escape_iter 3 0 256 = 0 /\
  1 <= GpuSet.escape_iter 2 0 256 /\
  GpuSet.escape_iter 0 0 256 = 256.
Proof.
  repeat apply conj.
  - by apply mandelbrot_escapes_at_once.
  - by apply mandelbrot_passes_first_test.
  - by apply mandelbrot_loop_origin.
  - by apply escape_iter_escapes_at_once.
  - by apply escape_iter_passes_first_test.
  - unfold GpuSet.escape_iter. by rewrite kernel_loop_origin.
Qed.

(** ** Grid evaluation by the thread pool (set.py) *)

Lemma linspace_last_is_stop (start stop : Q) (num : Z) :
  1 < num -> (SetPy.linspace_sample start stop num (num - 1) == stop)%Q.
Proof.
  intros Hn. unfold SetPy.linspace_sample.
  destruct (Z.ltb_spec 0 (num - 1)); [| lia].
  field. intros Hz. apply (inject_Z_injective (num - 1) 0) in Hz. lia.
Qed.

Lemma linspace_lookup (start stop : Q) (num i : Z) :
  0 <= i < num ->
  exists r, SetPy.linspace start stop num = Some r /\
            length r = Z.to_nat num /\
            py_index r i = Some (SetPy.linspace_sample start stop num i).
Proof.
  intros Hi. unfold SetPy.linspace.
  destruct (Z.ltb_spec num 0); [lia |].
  eexists. split; [done |]. split.
  - by rewrite length_fmap, range_length.
  - rewrite py_index_nonneg, list_lookup_fmap, range_lookup by lia.
    simpl. by rewrite Z2Nat.id by lia.
Qed.

Lemma mapM_Some_fmap {A B} (f : A -> option B) (g : A -> B) (l : list A) :
  Forall (fun x => f x = Some (g x)) l -> mapM f l = Some (g <$> l).
Proof.
  intros Hl. apply mapM_Some. induction Hl; constructor; done.
Qed.

(** A row of the thread-pool renderer: the kernel at the samples of
    [np.linspace]. *)
Lemma mandelbrot_row_eq (xmin xmax ymin ymax : Q) (width height max_iter y : Z) :
  0 <= width -> 0 <= y < height ->
  SetPy.mandelbrot_row xmin xmax ymin ymax width height max_iter y =
  Some ((fun x : Z =>
           SetPy.mandelbrot
             (SetPy.linspace_sample xmin xmax width x,
              SetPy.linspace_sample ymin ymax height y) max_iter)
          <$> range width).
Proof.
  intros Hw Hy. unfold SetPy.mandelbrot_row.
  destruct (linspace_lookup ymin ymax height y Hy) as (r2 & -> & _ & Hr2).
  assert (exists r1, SetPy.linspace xmin xmax width = Some r1 /\
            forall x, 0 <= x < width ->
              py_index r1 x = Some (SetPy.linspace_sample xmin xmax width x))
    as (r1 & -> & Hr1).
  { unfold SetPy.linspace. destruct (Z.ltb_spec width 0); [lia |].
    eexists. split; [done |]. intros x Hx.
    rewrite py_index_nonneg, list_lookup_fmap, range_lookup by lia.
    simpl. by rewrite Z2Nat.id by lia. }
  simpl. apply mapM_Some_fmap, Forall_forall.
  intros x Hx%elem_of_range. by rewrite Hr1, Hr2.
Qed.

Section executor.
Context {A B : Type} (fn : A -> option B) (iterable : list A).

Lemma futures_length (order : list nat) (fs : list (option (option B))) :
  length (foldl (SetPy.complete_future fn iterable) fs order) = length fs.
Proof.
  revert fs. induction order as [| j order IH]; intros fs; simpl; [done |].
  rewrite IH. unfold SetPy.complete_future. destruct (iterable !! j); [| done].
  apply length_insert.
Qed.

Lemma futures_lookup (order : list nat) (fs : list (option (option B)))
    (i : nat) (a : A) :
  length fs = length iterable -> iterable !! i = Some a ->
  foldl (SetPy.complete_future fn iterable) fs order !! i =
  if decide (i ∈ order) then Some (Some (fn a)) else fs !! i.
Proof.
  intros Hlen Ha. revert fs Hlen.
  induction order as [| j order IH]; intros fs Hlen; simpl.
  - destruct (decide (i ∈ [])) as [Hin |]; [by apply elem_of_nil in Hin | done].
  - rewrite IH.
    2: { unfold SetPy.complete_future. destruct (iterable !! j); [| done].
         by rewrite length_insert. }
    destruct (decide (i ∈ order)) as [Hin | Hnin].
    + rewrite decide_True; [done |]. by apply elem_of_cons; right.
    + unfold SetPy.complete_future. destruct (decide (i = j)) as [<- | Hne].
      * rewrite Ha, decide_True by (apply elem_of_cons; by left).
        apply list_lookup_insert_eq. rewrite Hlen.
        by apply lookup_lt_Some in Ha.
      * rewrite decide_False.
        2: { intros [? | ?]%elem_of_cons; done. }
        destruct (iterable !! j); [| done].
        rewrite list_lookup_insert_ne; done.
Qed.

Lemma mapM_mjoin_completed (l : list A) :
  mapM (fun fut : option (option B) => mjoin fut)
       ((fun a => Some (fn a)) <$> l) = mapM fn l.
Proof.
  induction l as [| a l IH]; [done |].
  rewrite fmap_cons. simpl. destruct (fn a); simpl; [| done].
  by rewrite IH.
Qed.

(** Whatever the order in which the pool completes the futures, once each
    of them has completed the results are those of a sequential map. *)
Lemma executor_map_complete (order : list nat) :
  (forall i, (i < length iterable)%nat -> i ∈ order) ->
  SetPy.executor_map fn iterable order = mapM fn iterable.
Proof.
  intros Hall. unfold SetPy.executor_map.
  assert (foldl (SetPy.complete_future fn iterable) (replicate (length iterable) None) order =
          (fun a => Some (fn a)) <$> iterable) as ->.
  { apply list_eq. intros i. rewrite list_lookup_fmap.
    destruct (iterable !! i) as [a |] eqn:Ha; simpl.
    - rewrite (futures_lookup order _ i a); [| by rewrite length_replicate | done].
      rewrite decide_True; [done |].
      apply Hall. by apply lookup_lt_Some in Ha.
    - apply lookup_ge_None. rewrite futures_length, length_replicate.
      by apply lookup_ge_None in Ha. }
  apply mapM_mjoin_completed.
Qed.

Lemma executor_map_permutation (order : list nat) :
  order ≡ₚ seq 0 (length iterable) ->
  SetPy.executor_map fn iterable order = mapM fn iterable.
Proof.
  intros Hp. apply executor_map_complete. intros i Hi.
  rewrite Hp. apply elem_of_seq. lia.
Qed.

End executor.

(** The grid of the thread-pool renderer, for any order of completion. *)
Lemma setpy_mandelbrot_set_eq (xmin xmax ymin ymax : Q)
    (width height max_iter : Z) (order : list nat) :
  0 <= width ->
  order ≡ₚ seq 0 (Z.to_nat height) ->
  SetPy.mandelbrot_set xmin xmax ymin ymax width height max_iter order =
  Some ((fun y : Z =>
           (fun x : Z =>
              SetPy.mandelbrot
                (SetPy.linspace_sample xmin xmax width x,
                 SetPy.linspace_sample ymin ymax height y) max_iter)
             <$> range width)
          <$> range height).
Proof.
  intros Hw Hp. unfold SetPy.mandelbrot_set.
  rewrite executor_map_permutation by (by rewrite range_length).
  apply mapM_Some_fmap, Forall_forall.
  intros y Hy%elem_of_range. by apply mandelbrot_row_eq.
Qed.

(** ** Grid evaluation by the OpenCL kernel (gpuset.py) *)

(** The work-item of pixel [(x, y)] has index [y * width + x] and
    recovers [x] and [y] from it. *)
Lemma kernel_at_pixel (width height : Z) (xmin xmax ymin ymax : Q)
    (max_iter x y : Z) :
  0 <= x < width -> 0 <= y ->
  GpuSet.kernel width height xmin xmax ymin ymax max_iter (y * width + x) =
  GpuSet.escape_iter
    (xmin + (xmax - xmin) * inject_Z x / inject_Z width)
    (ymin + (ymax - ymin) * inject_Z y / inject_Z height) max_iter.
Proof.
  intros Hx Hy. unfold GpuSet.kernel.
  assert (Z.rem (y * width + x) width = x) as ->.
  { rewrite Z.rem_mod_nonneg by nia.
    symmetry. apply (Z.mod_unique_pos _ _ y); lia. }
  assert (Z.quot (y * width + x) width = y) as ->.
  { rewrite Z.quot_div_nonneg by nia.
    symmetry. apply (Z.div_unique_pos _ _ y x); lia. }
  done.
Qed.

Lemma gpu_mandelbrot_set_eq (xmin xmax ymin ymax : Q) (width height max_iter : Z) :
  0 < width -> 0 < height ->
  GpuSet.mandelbrot_set xmin xmax ymin ymax width height max_iter =
  Some ((fun y : Z =>
           (fun x : Z =>
              GpuSet.escape_iter
                (xmin + (xmax - xmin) * inject_Z x / inject_Z width)
                (ymin + (ymax - ymin) * inject_Z y / inject_Z height) max_iter)
             <$> range width)
          <$> range height).
Proof.
  intros Hw Hh. unfold GpuSet.mandelbrot_set, GpuSet.mandelbrot_set_raises.
  destruct (Z.ltb_spec width 0); [lia |].
  destruct (Z.ltb_spec height 0); [lia |].
  destruct (Z.eqb_spec (width * height) 0); [nia |]. simpl. f_equal.
  apply Forall_fmap_ext_1, Forall_forall. intros y Hy%elem_of_range.
  apply list_eq. intros i.
  destruct (decide (i < Z.to_nat width)%nat) as [Hi | Hi].
  - rewrite lookup_take_lt, lookup_drop by done.
    rewrite !list_lookup_fmap, !range_lookup by nia. simpl. f_equal.
    replace (Z.of_nat (Z.to_nat (y * width) + i)) with (y * width + Z.of_nat i)
      by lia.
    apply kernel_at_pixel; lia.
  - rewrite lookup_take_ge by lia. symmetry. apply lookup_ge_None.
    rewrite length_fmap, range_length. lia.
Qed.

(** ** Shape and range of the grids *)

Lemma well_shaped_fmap (f : Z -> Z -> Z) (width height max_iter : Z) :
  (forall x y, 0 <= f y x <= max_iter) ->
  well_shaped ((fun y => f y <$> range width) <$> range height)
    width height max_iter.
Proof.
  intros Hf. split.
  - by rewrite length_fmap, range_length.
  - apply Forall_fmap, Forall_forall. intros y _. simpl. split.
    + by rewrite length_fmap, range_length.
    + apply Forall_fmap, Forall_forall. intros x _. apply Hf.
Qed.

(** C2: for a positive resolution and a positive cap, [mandelbrot_set]
    returns a grid of [height] rows by [width] columns with every cell in
    [[0, max_iter]]: the thread-pool renderer for every order in which the
    pool completes the rows, and the OpenCL renderer. *)
Theorem grid_shape_and_range (xmin xmax ymin ymax : Q)
    (width height max_iter : Z) (order : list nat) :
  0 < width -> 0 < height -> 0 < max_iter ->
  order ≡ₚ seq 0 (Z.to_nat height) ->
  (exists grid,
     SetPy.mandelbrot_set xmin xmax ymin ymax width height max_iter order
       = Some grid /\
     well_shaped grid width height max_iter) /\
  (exists grid,
     GpuSet.mandelbrot_set xmin xmax ymin ymax width height max_iter
       = Some grid /\
     well_shaped grid width height max_iter).
Proof.
  intros Hw Hh Hm Hp. split.
  - eexists. split; [apply setpy_mandelbrot_set_eq; [lia | done] |].
    apply (well_shaped_fmap (fun y x => SetPy.mandelbrot _ max_iter)).
    intros x y. apply mandelbrot_bounds. lia.
  - eexists. split; [apply gpu_mandelbrot_set_eq; lia |].
    apply (well_shaped_fmap (fun y x => GpuSet.escape_iter _ _ max_iter)).
    intros x y. apply escape_iter_bounds. lia.
Qed.

Lemma grid_shape_and_range_witness :
  (exists grid,
     SetPy.mandelbrot_set (-2) 1 (- (15 # 10)) (15 # 10) 3 2 4 [1; 0]%nat
       = Some grid /\
     well_shaped grid 3 2 4) /\
  (exists grid,
     GpuSet.mandelbrot_set (-2) 1 (- (15 # 10)) (15 # 10) 3 2 4 = Some grid /\
     well_shaped grid 3 2 4).
Proof.
  apply grid_shape_and_range; [lia | lia | lia |].
  simpl. apply perm_swap.
Defined.

(** ** The zoom transform (gpuset.py) *)

Lemma Qeqb_pos (f : Q) : (0 < f)%Q -> Qeqb f 0 = false.
Proof. intros Hf. apply Qeqb_false. lra. Qed.

Lemma Qinv_pos (f : Q) : (0 < f)%Q -> (0 < 1 / f)%Q.
Proof. intros Hf. apply Qlt_shift_div_l; lra. Qed.



(** [auto_zoom] succeeds for a positive factor, and its result is the one
    the assignments of the source give. *)
Lemma auto_zoom_pos (f : Q) (mouse_x mouse_y : Z) (v : GpuSet.View) :
  (0 < f)%Q ->
  GpuSet.auto_zoom f mouse_x mouse_y v =
  Some (GpuSet.mkView
    (GpuSet.xmin v
       + (GpuSet.xmax v - GpuSet.xmin v) * inject_Z mouse_x / inject_Z GpuSet.WIDTH
       - (GpuSet.xmax v - GpuSet.xmin v) / f / 2)
    (GpuSet.xmin v
       + (GpuSet.xmax v - GpuSet.xmin v) * inject_Z mouse_x / inject_Z GpuSet.WIDTH
       + (GpuSet.xmax v - GpuSet.xmin v) / f / 2)
    (GpuSet.ymin v
       + (GpuSet.ymax v - GpuSet.ymin v) * inject_Z mouse_y / inject_Z GpuSet.HEIGHT
       - (GpuSet.ymax v - GpuSet.ymin v) / f / 2)
    (GpuSet.ymin v
       + (GpuSet.ymax v - GpuSet.ymin v) * inject_Z mouse_y / inject_Z GpuSet.HEIGHT
       + (GpuSet.ymax v - GpuSet.ymin v) / f / 2)
    (Z.min GpuSet.MAX_RENDER_WIDTH
       (Qtrunc (inject_Z (GpuSet.RENDER_WIDTH v) * f)))
    (Z.min GpuSet.MAX_RENDER_HEIGHT
       (Qtrunc (inject_Z (GpuSet.RENDER_HEIGHT v) * f)))
    (Z.min 2048 (Qtrunc (inject_Z (GpuSet.MAX_ITER v) * f)))).
Proof. intros Hf. unfold GpuSet.auto_zoom. by rewrite Qeqb_pos. Qed.

(** The claim of C3 as the specification words it fails: the new [xmin]
    is -1.75, not -1.667 (and the new [xmax] 0.75, not 0.833). *)
Lemma zoom_scenario_bounds_differ :
  exists v',
    GpuSet.auto_zoom GpuSet.ZOOM_FACTOR 400 300 GpuSet.initial_view = Some v' /\
    ~ Spec.approx (GpuSet.xmin v') (- (1667 # 1000)) /\
    ~ Spec.approx (GpuSet.xmax v') (833 # 1000).
Proof.
  eexists. split; [reflexivity |].
  split; intros H; vm_compute in H; by apply H.
Qed.

(** C3 (amended): from bounds (-2, 1, -1.5, 1.5), resolution 800 x 600 and
    cap 256, the zoom at (400, 300) with factor 1.2 gives xmin = -1.75,
    xmax = 0.75, ymin = -1.25, ymax = 1.25 (the extents divided by 1.2
    around the centre (-0.5, 0) of the view), resolution 800 x 600 and
    cap 307. *)
Theorem zoom_scenario :
  exists v',
    GpuSet.auto_zoom GpuSet.ZOOM_FACTOR 400 300 GpuSet.initial_view = Some v' /\
    (GpuSet.xmin v' == - (175 # 100))%Q /\
    (GpuSet.xmax v' == 75 # 100)%Q /\
    (GpuSet.ymin v' == - (125 # 100))%Q /\
    (GpuSet.ymax v' == 125 # 100)%Q /\
    GpuSet.RENDER_WIDTH v' = 800 /\ GpuSet.RENDER_HEIGHT v' = 600 /\
    GpuSet.MAX_ITER v' = 307.
Proof.
  eexists. split; [reflexivity |]. repeat apply conj; reflexivity.
Qed.

(** The claim of C4 as the specification words it fails on the first
    zoom-out: the width becomes 666 where rounding gives 667, and the cap
    becomes 213, below 256. *)
Lemma zoom_out_is_not_clamped_rounding :
  exists v',
    GpuSet.auto_zoom (1 / GpuSet.ZOOM_FACTOR) 400 300 GpuSet.initial_view
      = Some v' /\
    GpuSet.RENDER_WIDTH v'
      <> Spec.new_width GpuSet.initial_view (1 / GpuSet.ZOOM_FACTOR) /\
    GpuSet.MAX_ITER v'
      <> Spec.new_max_iter GpuSet.initial_view (1 / GpuSet.ZOOM_FACTOR) /\
    GpuSet.MAX_ITER v' < GpuSet.INITIAL_MAX_ITER.
Proof.
  eexists. split; [reflexivity |].
  repeat apply conj; [intros H; vm_compute in H; discriminate H ..
                     | reflexivity].
Qed.

(** The values of that zoom-out. *)
Example zoom_out_values :
  exists v',
    GpuSet.auto_zoom (1 / GpuSet.ZOOM_FACTOR) 400 300 GpuSet.initial_view
      = Some v' /\
    GpuSet.RENDER_WIDTH v' = 666 /\ GpuSet.RENDER_HEIGHT v' = 500 /\
    GpuSet.MAX_ITER v' = 213 /\
    Spec.new_width GpuSet.initial_view (1 / GpuSet.ZOOM_FACTOR) = 667 /\
    Spec.new_max_iter GpuSet.initial_view (1 / GpuSet.ZOOM_FACTOR) = 256.
Proof. eexists. split; [reflexivity |]. repeat apply conj; reflexivity. Qed.

(** C4 (amended): for a positive factor the new resolution, per axis, never
    exceeds the maximum (800 x 600) and, when the truncation of
    [old * factor] is at least the minimum, it is that truncation clamped
    to [[minRes, maxRes]]; the new cap is
    [min(2048, trunc(oldMaxIter * factor))], never above 2048, with no
    floor at the initial cap. *)
Theorem zoom_resolution_and_cap (f : Q) (mouse_x mouse_y : Z) (v : GpuSet.View) :
  (0 < f)%Q ->
  exists v',
    GpuSet.auto_zoom f mouse_x mouse_y v = Some v' /\
    GpuSet.RENDER_WIDTH v' <= GpuSet.MAX_RENDER_WIDTH /\
    GpuSet.RENDER_HEIGHT v' <= GpuSet.MAX_RENDER_HEIGHT /\
    (GpuSet.MIN_RENDER_WIDTH <= Qtrunc (inject_Z (GpuSet.RENDER_WIDTH v) * f) ->
     GpuSet.RENDER_WIDTH v' =
     Spec.clamp GpuSet.MIN_RENDER_WIDTH GpuSet.MAX_RENDER_WIDTH
       (Qtrunc (inject_Z (GpuSet.RENDER_WIDTH v) * f))) /\
    (GpuSet.MIN_RENDER_HEIGHT <= Qtrunc (inject_Z (GpuSet.RENDER_HEIGHT v) * f) ->
     GpuSet.RENDER_HEIGHT v' =
     Spec.clamp GpuSet.MIN_RENDER_HEIGHT GpuSet.MAX_RENDER_HEIGHT
       (Qtrunc (inject_Z (GpuSet.RENDER_HEIGHT v) * f))) /\
    GpuSet.MAX_ITER v' = Z.min 2048 (Qtrunc (inject_Z (GpuSet.MAX_ITER v) * f)) /\
    GpuSet.MAX_ITER v' <= 2048.
Proof.
  intros Hf. eexists. split; [by apply auto_zoom_pos |]. simpl.
  unfold Spec.clamp, GpuSet.MIN_RENDER_WIDTH, GpuSet.MIN_RENDER_HEIGHT,
    GpuSet.MAX_RENDER_WIDTH, GpuSet.MAX_RENDER_HEIGHT, GpuSet.WIDTH,
    GpuSet.HEIGHT.
  repeat apply conj; lia.
Qed.

Lemma zoom_resolution_and_cap_witness :
  (0 < GpuSet.ZOOM_FACTOR)%Q /\
  exists v',
    GpuSet.auto_zoom GpuSet.ZOOM_FACTOR 400 300 GpuSet.initial_view = Some v' /\
    GpuSet.RENDER_WIDTH v' <= GpuSet.MAX_RENDER_WIDTH /\
    GpuSet.RENDER_HEIGHT v' <= GpuSet.MAX_RENDER_HEIGHT /\
    (GpuSet.MIN_RENDER_WIDTH
       <= Qtrunc (inject_Z (GpuSet.RENDER_WIDTH GpuSet.initial_view)
                  * GpuSet.ZOOM_FACTOR) ->
     GpuSet.RENDER_WIDTH v' =
     Spec.clamp GpuSet.MIN_RENDER_WIDTH GpuSet.MAX_RENDER_WIDTH
       (Qtrunc (inject_Z (GpuSet.RENDER_WIDTH GpuSet.initial_view)
                * GpuSet.ZOOM_FACTOR))) /\
    (GpuSet.MIN_RENDER_HEIGHT
       <= Qtrunc (inject_Z (GpuSet.RENDER_HEIGHT GpuSet.initial_view)
                  * GpuSet.ZOOM_FACTOR) ->
     GpuSet.RENDER_HEIGHT v' =
     Spec.clamp GpuSet.MIN_RENDER_HEIGHT GpuSet.MAX_RENDER_HEIGHT
       (Qtrunc (inject_Z (GpuSet.RENDER_HEIGHT GpuSet.initial_view)
                * GpuSet.ZOOM_FACTOR))) /\
    GpuSet.MAX_ITER v' =
      Z.min 2048 (Qtrunc (inject_Z (GpuSet.MAX_ITER GpuSet.initial_view)
                          * GpuSet.ZOOM_FACTOR)) /\
    GpuSet.MAX_ITER v' <= 2048.
Proof.
  assert (0 < GpuSet.ZOOM_FACTOR)%Q as Hf by reflexivity.
  split; [exact Hf |].
  exact (zoom_resolution_and_cap GpuSet.ZOOM_FACTOR 400 300 GpuSet.initial_view Hf).
Defined.

(** The claim of C5 as the specification words it fails away from the
    centre of the screen: zooming at the corner (0, 0) by 1.2 and back by
    1/1.2 moves the view from [-2, 1] x [-1.5, 1.5] to
    [-4.75, -1.75] x [-4.25, -1.25]. *)
Lemma zoom_round_trip_moves_the_view :
  exists v1 v2,
    GpuSet.auto_zoom GpuSet.ZOOM_FACTOR 0 0 GpuSet.initial_view = Some v1 /\
    GpuSet.auto_zoom (1 / GpuSet.ZOOM_FACTOR) 0 0 v1 = Some v2 /\
    ~ (GpuSet.xmin v2 == GpuSet.xmin GpuSet.initial_view)%Q /\
    ~ (GpuSet.xmax v2 == GpuSet.xmax GpuSet.initial_view)%Q /\
    ~ (GpuSet.ymin v2 == GpuSet.ymin GpuSet.initial_view)%Q /\
    ~ (GpuSet.ymax v2 == GpuSet.ymax GpuSet.initial_view)%Q.
Proof.
  eexists _, _. split; [reflexivity |]. split; [reflexivity |].
  repeat apply conj; intros H; vm_compute in H; discriminate H.
Qed.

Example zoom_round_trip_at_corner :
  exists v1 v2,
    GpuSet.auto_zoom GpuSet.ZOOM_FACTOR 0 0 GpuSet.initial_view = Some v1 /\
    GpuSet.auto_zoom (1 / GpuSet.ZOOM_FACTOR) 0 0 v1 = Some v2 /\
    (GpuSet.xmin v2 == - (475 # 100))%Q /\ (GpuSet.xmax v2 == - (175 # 100))%Q /\
    (GpuSet.ymin v2 == - (425 # 100))%Q /\ (GpuSet.ymax v2 == - (125 # 100))%Q.
Proof.
  eexists _, _. split; [reflexivity |]. split; [reflexivity |].
  repeat apply conj; reflexivity.
Qed.

(** C5 (amended): zooming at a focal point [(x, y)] with a factor [f > 1]
    and then at the same point with [1 / f] restores the extents of the
    plane bounds; the bounds themselves are shifted by
    [(xmax - xmin) * (x / 800 - 1/2) * (1 + 1/f)] horizontally and by
    [(ymax - ymin) * (y / 600 - 1/2) * (1 + 1/f)] vertically, so that they
    are restored exactly when the focal point is the centre of the screen,
    (400, 300). *)
Theorem zoom_round_trip (f : Q) (x y : Z) (v : GpuSet.View) :
  (1 < f)%Q ->
  exists v1 v2,
    GpuSet.auto_zoom f x y v = Some v1 /\
    GpuSet.auto_zoom (1 / f) x y v1 = Some v2 /\
    (GpuSet.xmax v2 - GpuSet.xmin v2 == GpuSet.xmax v - GpuSet.xmin v)%Q /\
    (GpuSet.ymax v2 - GpuSet.ymin v2 == GpuSet.ymax v - GpuSet.ymin v)%Q /\
    (GpuSet.xmin v2 ==
       GpuSet.xmin v
       + (GpuSet.xmax v - GpuSet.xmin v)
         * (inject_Z x / inject_Z GpuSet.WIDTH - (1 # 2)) * (1 + 1 / f))%Q /\
    (GpuSet.ymin v2 ==
       GpuSet.ymin v
       + (GpuSet.ymax v - GpuSet.ymin v)
         * (inject_Z y / inject_Z GpuSet.HEIGHT - (1 # 2)) * (1 + 1 / f))%Q /\
    (x = 400 ->
     (GpuSet.xmin v2 == GpuSet.xmin v)%Q /\ (GpuSet.xmax v2 == GpuSet.xmax v)%Q) /\
    (y = 300 ->
     (GpuSet.ymin v2 == GpuSet.ymin v)%Q /\ (GpuSet.ymax v2 == GpuSet.ymax v)%Q).
Proof.
  intros Hf.
  assert (0 < f)%Q as Hf0 by lra.
  assert (~ (f == 0)%Q) as Hfz by lra.
  eexists _, _. split; [by apply auto_zoom_pos |].
  split; [by apply auto_zoom_pos, Qinv_pos |].
  unfold GpuSet.WIDTH, GpuSet.HEIGHT. simpl.
  repeat apply conj; try (intros ->; split); field; done.
Qed.

Lemma zoom_round_trip_witness :
  (1 < GpuSet.ZOOM_FACTOR)%Q /\
  exists v1 v2,
    GpuSet.auto_zoom GpuSet.ZOOM_FACTOR 400 300 GpuSet.initial_view = Some v1 /\
    GpuSet.auto_zoom (1 / GpuSet.ZOOM_FACTOR) 400 300 v1 = Some v2 /\
    (GpuSet.xmin v2 == GpuSet.xmin GpuSet.initial_view)%Q /\
    (GpuSet.xmax v2 == GpuSet.xmax GpuSet.initial_view)%Q /\
    (GpuSet.ymin v2 == GpuSet.ymin GpuSet.initial_view)%Q /\
    (GpuSet.ymax v2 == GpuSet.ymax GpuSet.initial_view)%Q.
Proof.
  assert (1 < GpuSet.ZOOM_FACTOR)%Q as Hf by reflexivity.
  split; [exact Hf |].
  destruct (zoom_round_trip GpuSet.ZOOM_FACTOR 400 300 GpuSet.initial_view Hf)
    as (v1 & v2 & Hz1 & Hz2 & _ & _ & _ & _ & Hx & Hy).
  exists v1, v2.
  destruct (Hx eq_refl) as [Hx1 Hx2]. destruct (Hy eq_refl) as [Hy1 Hy2].
  repeat apply conj; assumption.
Defined.

(** C10, as claimed, fails on the floats of the program: 204 zooms by
    1.2 at the centre of the window and three more at (501, 300),
    (134, 300) and (0, 300) take the initial view to one whose bounds are
    still in order, [xmin < xmax] and [ymin < ymax], with [xmin] and
    [xmax] two neighbouring binary64 numbers; one more zoom by 1.2 at
    (0, 300) returns a view with [xmin = xmax = -0.5]. *)
Lemma zoom_collapses_the_bounds_on_binary64 :
  exists v v',
    GpuSet64.zoom_many GpuSet64.ZOOM_FACTOR
      (replicate 204 (400, 300) ++ [(501, 300); (134, 300); (0, 300)])
      GpuSet64.initial_view = Some v /\
    (GpuSet64.xmin v <? GpuSet64.xmax v)%float = true /\
    (GpuSet64.ymin v <? GpuSet64.ymax v)%float = true /\
    (0 <? GpuSet64.ZOOM_FACTOR)%float = true /\
    GpuSet64.auto_zoom GpuSet64.ZOOM_FACTOR 0 300 v = Some v' /\
    (GpuSet64.xmin v' <? GpuSet64.xmax v')%float = false /\
    (GpuSet64.xmin v' =? GpuSet64.xmax v')%float = true /\
    (GpuSet64.xmin v' =? -0.5)%float = true.
Proof.
  eexists _, _. split; [vm_compute; reflexivity |].
  split; [vm_compute; reflexivity |]. split; [vm_compute; reflexivity |].
  split; [vm_compute; reflexivity |]. split; [vm_compute; reflexivity |].
  split; [vm_compute; reflexivity |]. split; vm_compute; reflexivity.
Qed.



(** ** Pixel coordinates *)

Lemma grid_lookup (f : Z -> Z -> Z) (width height x y : Z) :
  0 <= x < width -> 0 <= y < height ->
  (row ← py_index ((fun y => f y <$> range width) <$> range height) y;
   py_index row x) = Some (f y x).
Proof.
  intros Hx Hy.
  rewrite py_index_nonneg, list_lookup_fmap, range_lookup by lia. simpl.
  rewrite py_index_nonneg, list_lookup_fmap, range_lookup by lia. simpl.
  by rewrite !Z2Nat.id by lia.
Qed.

(** For more than one sample, [np.linspace] divides by [num - 1]. *)
Lemma linspace_sample_formula (start stop : Q) (num i : Z) :
  1 < num ->
  (SetPy.linspace_sample start stop num i ==
   start + (stop - start) * inject_Z i / inject_Z (num - 1))%Q.
Proof.
  intros Hn. unfold SetPy.linspace_sample.
  destruct (Z.ltb_spec 0 (num - 1)); [| lia].
  field. intros Hz. apply (inject_Z_injective (num - 1) 0) in Hz. lia.
Qed.

(** The claim of C6 as the specification words it fails for the
    thread-pool renderer: on the view [0, 4] x [0, 1] at resolution 2 x 2
    the pixel (1, 0) is evaluated at 4 + 0i (count 0), not at the
    interpolated point 2 + 0i (count 1). *)
Lemma thread_pool_pixel_is_not_interpolated :
  exists grid,
    SetPy.mandelbrot_set 0 4 0 1 2 2 5 [0; 1]%nat = Some grid /\
    SetPy.image_at grid 0 1 = Some 0 /\
    SetPy.mandelbrot (Spec.interpolate 0 4 1 2, Spec.interpolate 0 1 0 2) 5 = 1 /\
    SetPy.image_at grid 0 1 <>
    Some (SetPy.mandelbrot
            (Spec.interpolate 0 4 1 2, Spec.interpolate 0 1 0 2) 5).
Proof.
  eexists. split; [reflexivity |].
  split; [reflexivity |]. split; [reflexivity |].
  intros H. vm_compute in H. discriminate H.
Qed.

(** At the render size of set.py the last column is sampled at [xmax]
    itself, where the interpolation stops one pixel width short of it. *)
Example last_column_is_xmax :
  (SetPy.linspace_sample (-2) 1 SetPy.RENDER_WIDTH 399 == 1)%Q /\
  (Spec.interpolate (-2) 1 399 SetPy.RENDER_WIDTH == 1 - (3 # 400))%Q.
Proof. split; reflexivity. Qed.

(** C6 (amended): the OpenCL renderer evaluates pixel [(x, y)] at
    [real = xmin + (xmax - xmin) * x / width] and
    [imag = ymin + (ymax - ymin) * y / height]; the thread-pool renderer
    evaluates it at the samples of [np.linspace], end points included:
    [real = xmin + (xmax - xmin) * x / (width - 1)] and
    [imag = ymin + (ymax - ymin) * y / (height - 1)] when the resolution
    is more than one pixel per axis. *)
Theorem pixel_coordinates (xmin xmax ymin ymax : Q)
    (width height max_iter x y : Z) (order : list nat) :
  0 <= x < width -> 0 <= y < height ->
  order ≡ₚ seq 0 (Z.to_nat height) ->
  (exists grid,
     GpuSet.mandelbrot_set xmin xmax ymin ymax width height max_iter
       = Some grid /\
     GpuSet.image_at grid y x =
     Some (GpuSet.escape_iter (Spec.interpolate xmin xmax x width)
             (Spec.interpolate ymin ymax y height) max_iter)) /\
  (exists grid,
     SetPy.mandelbrot_set xmin xmax ymin ymax width height max_iter order
       = Some grid /\
     SetPy.image_at grid y x =
     Some (SetPy.mandelbrot
             (SetPy.linspace_sample xmin xmax width x,
              SetPy.linspace_sample ymin ymax height y) max_iter)) /\
  (1 < width ->
   (SetPy.linspace_sample xmin xmax width x ==
    xmin + (xmax - xmin) * inject_Z x / inject_Z (width - 1))%Q) /\
  (1 < height ->
   (SetPy.linspace_sample ymin ymax height y ==
    ymin + (ymax - ymin) * inject_Z y / inject_Z (height - 1))%Q).
Proof.
  intros Hx Hy Hp. repeat apply conj.
  - eexists. split; [apply gpu_mandelbrot_set_eq; lia |].
    unfold GpuSet.image_at, Spec.interpolate.
    by rewrite (grid_lookup (fun y x => GpuSet.escape_iter _ _ max_iter)).
  - eexists. split; [apply setpy_mandelbrot_set_eq; [lia | done] |].
    unfold SetPy.image_at.
    by rewrite (grid_lookup (fun y x => SetPy.mandelbrot _ max_iter)).
  - apply linspace_sample_formula.
  - apply linspace_sample_formula.
Qed.

Lemma pixel_coordinates_witness :
  (exists grid,
     GpuSet.mandelbrot_set 0 4 0 1 2 2 5 = Some grid /\
     GpuSet.image_at grid 0 1 =
     Some (GpuSet.escape_iter (Spec.interpolate 0 4 1 2)
             (Spec.interpolate 0 1 0 2) 5)) /\
  (exists grid,
     SetPy.mandelbrot_set 0 4 0 1 2 2 5 [0; 1]%nat = Some grid /\
     SetPy.image_at grid 0 1 =
     Some (SetPy.mandelbrot
             (SetPy.linspace_sample 0 4 2 1, SetPy.linspace_sample 0 1 2 0) 5)).
Proof.
  destruct (pixel_coordinates 0 4 0 1 2 2 5 1 0 [0; 1]%nat) as (Hg & Hs & _);
    [lia | lia | reflexivity |].
  exact (conj Hg Hs).
Defined.

(** ** The thread pool against a sequential evaluation *)

Lemma sequential_set_eq (xmin xmax ymin ymax : Q) (width height max_iter : Z) :
  0 <= width -> 0 <= height ->
  Spec.sequential_set xmin xmax ymin ymax width height max_iter =
  Some ((fun y : Z =>
           (fun x : Z =>
              SetPy.mandelbrot
                (SetPy.linspace_sample xmin xmax width x,
                 SetPy.linspace_sample ymin ymax height y) max_iter)
             <$> range width)
          <$> range height).
Proof.
  intros Hw Hh. unfold Spec.sequential_set, SetPy.linspace.
  destruct (Z.ltb_spec width 0); [lia |].
  destruct (Z.ltb_spec height 0); [lia |]. simpl.
  apply mapM_Some_fmap, Forall_forall. intros y Hy%elem_of_range.
  apply mapM_Some_fmap, Forall_forall. intros x Hx%elem_of_range.
  rewrite !py_index_nonneg, !list_lookup_fmap, !range_lookup by lia. simpl.
  by rewrite !Z2Nat.id by lia.
Qed.

(** C8: for every viewport, resolution and cap, and whatever the order in
    which the pool completes the rows, the thread-pool evaluator
    ([mandelbrot_set] mapping [mandelbrot_row] over the rows) returns the
    grid of the naive sequential evaluator that calls the same kernel on
    each pixel in row-major order. *)
Theorem thread_pool_equals_sequential (xmin xmax ymin ymax : Q)
    (width height max_iter : Z) (order : list nat) :
  0 <= width -> 0 <= height ->
  order ≡ₚ seq 0 (Z.to_nat height) ->
  exists grid,
    SetPy.mandelbrot_set xmin xmax ymin ymax width height max_iter order
      = Some grid /\
    Spec.sequential_set xmin xmax ymin ymax width height max_iter = Some grid.
Proof.
  intros Hw Hh Hp. eexists. split.
  - by apply setpy_mandelbrot_set_eq.
  - by apply sequential_set_eq.
Qed.

Lemma thread_pool_equals_sequential_witness :
  exists grid,
    SetPy.mandelbrot_set (-2) 1 (- (15 # 10)) (15 # 10) 4 3 6 [2; 0; 1]%nat
      = Some grid /\
    Spec.sequential_set (-2) 1 (- (15 # 10)) (15 # 10) 4 3 6 = Some grid.
Proof.
  apply thread_pool_equals_sequential; [lia | lia |].
  exact (Permutation_cons_app [0; 1]%nat [] 2%nat (Permutation_refl _)).
Defined.

(** ** Colouring *)

(** A loop whose body never raises is a fold. *)
Lemma for_in_total {S A} (l : list A) (body : A -> S -> option S)
    (h : S -> A -> S) (s : S) :
  (forall a s, a ∈ l -> body a s = Some (h s a)) ->
  for_in l body s = Some (foldl h s l).
Proof.
  revert s. induction l as [| a l IH]; intros s Hb; simpl; [done |].
  rewrite Hb by (by left). simpl. apply IH.
  intros a' s' Ha'. apply Hb. by right.
Qed.

Section painting.
Context {C : Type} (col : Z -> Z -> C).

Lemma paint_column_lookup (x : Z) (ys : list Z) (s : gmap (Z * Z) C)
    (x' y' : Z) :
  paint_column col x ys s !! (x', y') =
  if decide (x' = x /\ y' ∈ ys) then Some (col x' y') else s !! (x', y').
Proof.
  unfold paint_column. revert s.
  induction ys as [| y ys IH]; intros s; cbn [foldl].
  - rewrite decide_False; [done |]. intros [_ Hin]. by apply elem_of_nil in Hin.
  - rewrite IH. destruct (decide (x' = x /\ y' ∈ ys)) as [[-> Hin] | Hn].
    + rewrite decide_True; [done |]. split; [done | by right].
    + destruct (decide ((x, y) = (x', y'))) as [[= -> ->] | Hne].
      * rewrite lookup_insert_eq, decide_True; [done |].
        split; [done | by left].
      * rewrite lookup_insert_ne by done.
        rewrite decide_False; [done |].
        intros [-> [-> | Hin]%elem_of_cons]; [done |]. apply Hn. by split.
Qed.

Lemma paint_lookup (xs ys : list Z) (s : gmap (Z * Z) C) (x' y' : Z) :
  paint col xs ys s !! (x', y') =
  if decide (x' ∈ xs /\ y' ∈ ys) then Some (col x' y') else s !! (x', y').
Proof.
  unfold paint. revert s.
  induction xs as [| x xs IH]; intros s; cbn [foldl].
  - rewrite decide_False; [done |]. intros [Hin _]. by apply elem_of_nil in Hin.
  - rewrite IH. destruct (decide (x' ∈ xs /\ y' ∈ ys)) as [[Hx Hy] | Hn].
    + rewrite decide_True; [done |]. split; [by right | done].
    + rewrite paint_column_lookup.
      destruct (decide (x' = x /\ y' ∈ ys)) as [[-> Hy] | Hn'].
      * rewrite decide_True; [done |]. split; [by left | done].
      * rewrite decide_False; [done |].
        intros [[-> | Hx]%elem_of_cons Hy]; [apply Hn' | apply Hn]; by split.
Qed.

(** The two nested loops of [draw_mandelbrot], for a cell reader
    [image_at] that succeeds on the whole image: every pixel of the image
    gets the colour of its cell, the rest of the surface is untouched. *)
Lemma draw_loops (image_at : Z -> Z -> option Z) (color_of : Z -> C)
    (cell : Z -> Z -> Z) (width height : Z) (surface : gmap (Z * Z) C) :
  (forall x y, col x y = color_of (cell y x)) ->
  (forall x y, 0 <= x < width -> 0 <= y < height ->
     image_at y x = Some (cell y x)) ->
  exists surface',
    for_in (range width) (fun x surface =>
      for_in (range height) (fun y surface =>
        v ← image_at y x; Some (<[(x, y) := color_of v]> surface)) surface)
      surface = Some surface' /\
    forall x y, 0 <= x < width -> 0 <= y < height ->
      surface' !! (x, y) = Some (color_of (cell y x)).
Proof.
  intros Hcol Himg. exists (paint col (range width) (range height) surface). split.
  - unfold paint. apply for_in_total. intros x s Hx%elem_of_range.
    unfold paint_column. apply for_in_total. intros y s' Hy%elem_of_range.
    by rewrite Himg, Hcol.
  - intros x y Hx Hy. rewrite paint_lookup, decide_True, Hcol; [done |].
    split; by apply elem_of_range.
Qed.

End painting.

(** Every cell of an image of the right shape can be read. *)
Lemma image_cells (img : list (list Z)) (width height : Z) :
  has_shape img width height ->
  exists cell : Z -> Z -> Z,
    forall x y, 0 <= x < width -> 0 <= y < height ->
      (row ← py_index img y; py_index row x) = Some (cell y x).
Proof.
  intros [Hlen Hrows].
  exists (fun y x => default 0 (row ← py_index img y; py_index row x)).
  intros x y Hx Hy. rewrite py_index_nonneg by lia.
  destruct (lookup_lt_is_Some_2 img (Z.to_nat y)) as [row Hrow]; [lia |].
  rewrite Hrow. simpl.
  pose proof (Forall_lookup_1 _ _ _ _ Hrows Hrow) as Hr. simpl in Hr.
  rewrite py_index_nonneg by lia.
  destruct (lookup_lt_is_Some_2 row (Z.to_nat x)) as [c Hc]; [lia |].
  by rewrite Hc.
Qed.

(** The grey level of set.py in integers. *)
Lemma setpy_color_of_eq (v : Z) :
  SetPy.color_of v =
  (Z.quot (v * 255) 256, Z.quot (v * 255) 256, Z.quot (v * 255) 256).
Proof.
  unfold SetPy.color_of, Qtrunc, SetPy.MAX_ITER. simpl.
  replace (v * 1 * 255) with (v * 255) by lia. done.
Qed.

(** The claim of C9 as the specification words it fails for the
    colouring of set.py: a cell equal to its cap 256 is drawn white. *)
Lemma setpy_interior_is_not_black :
  exists surface',
    SetPy.draw_mandelbrot ∅ [[SetPy.MAX_ITER]] 1 1 = Some surface' /\
    surface' !! (0, 0) = Some (255, 255, 255) /\
    surface' !! (0, 0) <> Some (0, 0, 0).
Proof.
  eexists. split; [reflexivity |]. split; [reflexivity |].
  intros H. vm_compute in H. discriminate H.
Qed.

Example setpy_interior_is_white :
  SetPy.color_of SetPy.MAX_ITER = (255, 255, 255) /\
  SetPy.color_of 100 = (99, 99, 99).
Proof. split; reflexivity. Qed.

(** C9 (amended): on an image of [height] rows by [width] columns,
    [draw_mandelbrot] of gpuset.py paints a cell equal to [max_iter] black
    (0, 0, 0) and every other cell of count [i] with
    (i mod 256, (i * 5) mod 256, (i * 13) mod 256); [draw_mandelbrot] of
    set.py paints a cell of count [i] with the grey (g, g, g),
    g = trunc(i * 255 / 256), so that a cell equal to its cap 256 is
    white. *)
Theorem colorization (surface : gmap (Z * Z) (Z * Z * Z))
    (img : list (list Z)) (width height max_iter : Z) :
  has_shape img width height ->
  (exists surface',
     GpuSet.draw_mandelbrot surface img width height max_iter = Some surface' /\
     forall x y i, 0 <= x < width -> 0 <= y < height ->
       GpuSet.image_at img y x = Some i ->
       surface' !! (x, y) =
       Some (if decide (i = max_iter) then (0, 0, 0)
             else (i `mod` 256, (i * 5) `mod` 256, (i * 13) `mod` 256))) /\
  (exists surface',
     SetPy.draw_mandelbrot surface img width height = Some surface' /\
     forall x y i, 0 <= x < width -> 0 <= y < height ->
       SetPy.image_at img y x = Some i ->
       surface' !! (x, y) =
       Some (Z.quot (i * 255) 256, Z.quot (i * 255) 256, Z.quot (i * 255) 256)).
Proof.
  intros Hshape. destruct (image_cells img width height Hshape) as [cell Hcell].
  split.
  - destruct (draw_loops (fun x y => GpuSet.color_of (cell y x) max_iter)
                (fun y x => GpuSet.image_at img y x)
                (fun i => GpuSet.color_of i max_iter) cell width height surface)
      as (s' & Hs' & Hlook); [done | exact Hcell |].
    exists s'. split; [exact Hs' |].
    intros x y i Hx Hy Hi. rewrite Hlook by done.
    unfold GpuSet.image_at in Hi. rewrite Hcell in Hi by done.
    injection Hi as ->. unfold GpuSet.color_of.
    destruct (Z.eqb_spec i max_iter), (decide (i = max_iter)); done.
  - destruct (draw_loops (fun x y => SetPy.color_of (cell y x))
                (fun y x => SetPy.image_at img y x)
                SetPy.color_of cell width height surface)
      as (s' & Hs' & Hlook); [done | exact Hcell |].
    exists s'. split; [exact Hs' |].
    intros x y i Hx Hy Hi. rewrite Hlook by done.
    unfold SetPy.image_at in Hi. rewrite Hcell in Hi by done.
    injection Hi as ->. by rewrite setpy_color_of_eq.
Qed.

Lemma colorization_witness :
  (exists surface',
     GpuSet.draw_mandelbrot ∅ [[256; 3]; [0; 7]] 2 2 256 = Some surface' /\
     forall x y i, 0 <= x < 2 -> 0 <= y < 2 ->
       GpuSet.image_at [[256; 3]; [0; 7]] y x = Some i ->
       surface' !! (x, y) =
       Some (if decide (i = 256) then (0, 0, 0)
             else (i `mod` 256, (i * 5) `mod` 256, (i * 13) `mod` 256))) /\
  (exists surface',
     SetPy.draw_mandelbrot ∅ [[256; 3]; [0; 7]] 2 2 = Some surface' /\
     forall x y i, 0 <= x < 2 -> 0 <= y < 2 ->
       SetPy.image_at [[256; 3]; [0; 7]] y x = Some i ->
       surface' !! (x, y) =
       Some (Z.quot (i * 255) 256, Z.quot (i * 255) 256, Z.quot (i * 255) 256)).
Proof.
  apply (colorization ∅ [[256; 3]; [0; 7]] 2 2 256).
  split; [reflexivity |]. repeat constructor.
Defined.

(** ** The render queue *)

Lemma pending_put_render (p : GpuSet.Program) :
  GpuSet.pending (GpuSet.start_new_render p) = S (GpuSet.pending p).
Proof.
  unfold GpuSet.pending, GpuSet.start_new_render. simpl.
  rewrite filter_app, length_app. simpl. lia.
Qed.

(** No schedule ever drops a request: the computations made and the
    render tasks still queued add up to those there were before plus the
    requests submitted on the way. *)
Lemma requests_are_conserved (es : list GpuSet.event) (p p' : GpuSet.Program) :
  GpuSet.run es p = Some p' ->
  (length (GpuSet.computations p') + GpuSet.pending p' =
   length (GpuSet.computations p) + GpuSet.pending p + GpuSet.submitted es p)%nat.
Proof.
  revert p. induction es as [| e es IH]; intros p Hrun; simpl in *.
  - injection Hrun as ->. lia.
  - destruct (GpuSet.step e p) as [p1 |] eqn:Hstep; [| done]. simpl in Hrun.
    rewrite (IH p1 Hrun). clear IH Hrun.
    destruct e as [zf mx my | | | |]; simpl in Hstep.
    + destruct (GpuSet.is_rendering p) eqn:Hr.
      * injection Hstep as <-. lia.
      * destruct (GpuSet.auto_zoom zf mx my (GpuSet.view p)) as [v |]; [| done].
        simpl in Hstep. injection Hstep as <-.
        rewrite pending_put_render. simpl. unfold GpuSet.pending. simpl. lia.
    + injection Hstep as <-. rewrite pending_put_render. simpl. lia.
    + injection Hstep as <-. unfold GpuSet.pending. simpl.
      rewrite filter_app, length_app. simpl. lia.
    + unfold GpuSet.pending.
      destruct (GpuSet.render_thread p); try done.
      destruct (GpuSet.render_queue p) as [| [|] q]; try done;
        injection Hstep as <-; rewrite filter_cons; simpl;
        rewrite ?length_app; simpl; lia.
    + destruct (GpuSet.render_thread p); try done.
      injection Hstep as <-. unfold GpuSet.pending. simpl. lia.
Qed.

(** The claim of C7 as the specification words it fails: the module's
    own first request ([start_new_render()] before the main loop) and a
    zoom click that arrives before the worker has taken it are both
    computed; two computations run, not one, both on the zoomed view. *)
Lemma second_request_does_not_supersede :
  exists v2 p',
    GpuSet.auto_zoom GpuSet.ZOOM_FACTOR 400 300 GpuSet.initial_view = Some v2 /\
    GpuSet.run [GpuSet.EvStartNewRender;
                GpuSet.EvZoom GpuSet.ZOOM_FACTOR 400 300;
                GpuSet.EvWorkerGet; GpuSet.EvWorkerDone;
                GpuSet.EvWorkerGet; GpuSet.EvWorkerDone]
      GpuSet.initial_program = Some p' /\
    GpuSet.computations p' = [v2; v2] /\
    ~ (length (GpuSet.computations p') = 1)%nat.
Proof.
  eexists _, _. split; [reflexivity |]. split; [reflexivity |].
  split; [reflexivity |]. simpl. lia.
Qed.

(** C7 (amended): when a second render request is submitted before the
    first has started computing, nothing is dropped: the worker takes the
    two queued tasks one after the other and runs two computations, each
    on the globals as they are when it takes the task, hence both on the
    second, most recent view; the queue is empty afterwards and the
    surface published is that of the second view. *)
Theorem queued_requests_are_all_computed (p : GpuSet.Program)
    (f1 f2 : Q) (x1 y1 x2 y2 : Z) :
  GpuSet.idle p -> (0 < f1)%Q -> (0 < f2)%Q ->
  exists v1 v2 p',
    GpuSet.auto_zoom f1 x1 y1 (GpuSet.view p) = Some v1 /\
    GpuSet.auto_zoom f2 x2 y2 v1 = Some v2 /\
    GpuSet.run [GpuSet.EvZoom f1 x1 y1; GpuSet.EvZoom f2 x2 y2;
                GpuSet.EvWorkerGet; GpuSet.EvWorkerDone;
                GpuSet.EvWorkerGet; GpuSet.EvWorkerDone] p = Some p' /\
    GpuSet.computations p' = GpuSet.computations p ++ [v2; v2] /\
    GpuSet.render_queue p' = [] /\
    GpuSet.view p' = v2 /\
    GpuSet.next_render_surface p' = Some v2.
Proof.
  intros (Hq & Hr & Ht) Hf1 Hf2.
  destruct p as [vw q th r nu ns cs]. simpl in Hq, Hr, Ht. subst q r.
  cbn [GpuSet.view GpuSet.computations].
  destruct (GpuSet.auto_zoom f1 x1 y1 vw) as [v1 |] eqn:H1;
    [| by rewrite auto_zoom_pos in H1].
  destruct (GpuSet.auto_zoom f2 x2 y2 v1) as [v2 |] eqn:H2;
    [| by rewrite auto_zoom_pos in H2].
  exists v1, v2. eexists. split; [done |]. split; [done |].
  cbn [GpuSet.run GpuSet.step GpuSet.is_rendering GpuSet.view].
  rewrite H1.
  cbn [mbind option_bind GpuSet.start_new_render GpuSet.is_rendering
       GpuSet.view].
  rewrite H2.
  destruct th as [| | v |]; [| | discriminate Ht |]; cbn;
    rewrite <- ?(assoc_L (++)); done.
Qed.

Lemma queued_requests_are_all_computed_witness :
  exists v1 v2 p',
    GpuSet.auto_zoom GpuSet.ZOOM_FACTOR 400 300 GpuSet.initial_view = Some v1 /\
    GpuSet.auto_zoom (1 / GpuSet.ZOOM_FACTOR) 10 20 v1 = Some v2 /\
    GpuSet.run [GpuSet.EvZoom GpuSet.ZOOM_FACTOR 400 300;
                GpuSet.EvZoom (1 / GpuSet.ZOOM_FACTOR) 10 20;
                GpuSet.EvWorkerGet; GpuSet.EvWorkerDone;
                GpuSet.EvWorkerGet; GpuSet.EvWorkerDone]
      GpuSet.initial_program = Some p' /\
    GpuSet.computations p' = [] ++ [v2; v2] /\
    GpuSet.render_queue p' = [] /\
    GpuSet.view p' = v2 /\
    GpuSet.next_render_surface p' = Some v2.
Proof.
  apply (queued_requests_are_all_computed GpuSet.initial_program
           GpuSet.ZOOM_FACTOR (1 / GpuSet.ZOOM_FACTOR) 400 300 10 20).
  - split; [reflexivity |]. split; reflexivity.
  - reflexivity.
  - reflexivity.
Defined.

(** * Further properties of the code *)

(** ** The kernels compared *)

Lemma Qgtb_Qeq (x x' y : Q) : (x == x')%Q -> Qgtb x y = Qgtb x' y.
Proof. intros Hx. unfold Qgtb. by rewrite Hx. Qed.

(** The loop of the OpenCL kernel only looks at its arguments up to
    equality of rationals. *)
Lemma kernel_loop_Qeq (fuel : nat) (iter : Z) (r i cr ci r' i' cr' ci' : Q) :
  (r == r')%Q -> (i == i')%Q -> (cr == cr')%Q -> (ci == ci')%Q ->
  GpuSet.kernel_loop fuel iter r i cr ci =
  GpuSet.kernel_loop fuel iter r' i' cr' ci'.
Proof.
  intros Hr Hi Hcr Hci. revert iter r i r' i' Hr Hi.
  induction fuel as [| fuel IH]; intros iter r i r' i' Hr Hi; simpl; [done |].
  rewrite (Qgtb_Qeq (r * r + i * i) (r' * r' + i' * i')) by (by rewrite Hr, Hi).
  destruct (Qgtb _ _); [done |].
  apply IH; by rewrite Hr, Hi, ?Hcr, ?Hci.
Qed.


(** The loop of set.py from index [k] on, against the loop of the kernel
    entered with [iter = k]. *)
Lemma mandelbrot_loop_is_kernel_loop (n k : nat) (z c : SetPy.complex)
    (r i : Q) (max_iter : Z) :
  max_iter = Z.of_nat (k + n) -> (z.1 == r)%Q -> (z.2 == i)%Q ->
  SetPy.mandelbrot_loop (Z.of_nat <$> seq k n) z c max_iter =
  GpuSet.kernel_loop n (Z.of_nat k) r i c.1 c.2.
Proof.
  revert k z r i. induction n as [| n IH]; intros k z r i Hm Hz1 Hz2; simpl.
  - lia.
  - unfold SetPy.abs_gt_2.
    rewrite (Qgtb_Qeq (z.1 * z.1 + z.2 * z.2) (r * r + i * i))
      by (by rewrite Hz1, Hz2).
    destruct (Qgtb _ _); [done |].
    rewrite (IH (S k) _ (r * r - i * i + c.1)%Q (2 * r * i + c.2)%Q).
    + f_equal. lia.
    + lia.
    + unfold SetPy.cadd, SetPy.cmul. simpl. rewrite Hz1, Hz2. ring.
    + unfold SetPy.cadd, SetPy.cmul. simpl. rewrite Hz1, Hz2. ring.
Qed.

Lemma mandelbrot_is_escape_iter (re im : Q) (max_iter : Z) :
  0 <= max_iter ->
  SetPy.mandelbrot (re, im) max_iter = GpuSet.escape_iter re im max_iter.
Proof.
  intros Hm. unfold SetPy.mandelbrot, GpuSet.escape_iter, range.
  apply (mandelbrot_loop_is_kernel_loop _ 0 (re, im) (re, im)); [lia | done..].
Qed.

(** X1: for a cap that is not negative, [mandelbrot] of set.py and the
    OpenCL kernel of gpuset.py return the same count at the same point. *)
Theorem kernels_agree (re im : Q) (max_iter : Z) :
  0 <= max_iter ->
  SetPy.mandelbrot (re, im) max_iter = GpuSet.escape_iter re im max_iter.
Proof.
  intros Hm. unfold SetPy.mandelbrot, GpuSet.escape_iter, range.
  apply (mandelbrot_loop_is_kernel_loop (Z.to_nat max_iter) 0 (re, im) (re, im)).
  - lia.
  - reflexivity.
  - reflexivity.
Qed.

Lemma kernels_agree_witness :
  SetPy.mandelbrot (-1 # 2, 3 # 4)%Q 12 = GpuSet.escape_iter (-1 # 2) (3 # 4) 12.
Proof. apply kernels_agree. lia. Defined.

Lemma cap_not_positive_aux (re im : Q) (max_iter : Z) :
  max_iter <= 0 ->
  SetPy.mandelbrot (re, im) max_iter = max_iter /\
  GpuSet.escape_iter re im max_iter = 0.
Proof.
  intros Hm. unfold SetPy.mandelbrot, GpuSet.escape_iter, range.
  by replace (Z.to_nat max_iter) with 0%nat by lia.
Qed.

(** X2: with a cap that is zero or negative the loops do not run:
    [mandelbrot] of set.py returns the cap itself, negative when the cap
    is, and the OpenCL kernel returns 0. *)
Theorem cap_not_positive (re im : Q) (max_iter : Z) :
  max_iter <= 0 ->
  SetPy.mandelbrot (re, im) max_iter = max_iter /\
  GpuSet.escape_iter re im max_iter = 0.
Proof.
  intros Hm.
  assert (Z.to_nat max_iter = 0%nat) as Hfuel by lia.
  split.
  - unfold SetPy.mandelbrot, range. by rewrite Hfuel.
  - unfold GpuSet.escape_iter. by rewrite Hfuel.
Qed.

Lemma cap_not_positive_witness :
  SetPy.mandelbrot (3, 0)%Q (-5) = -5 /\ GpuSet.escape_iter 3 0 (-5) = 0.
Proof. apply cap_not_positive. lia. Defined.

Lemma kernel_loop_cap (n d : nat) (iter : Z) (r i cr ci : Q) :
  GpuSet.kernel_loop n iter r i cr ci =
  Z.min (iter + Z.of_nat n) (GpuSet.kernel_loop (n + d) iter r i cr ci).
Proof.
  revert iter r i. induction n as [| n IH]; intros iter r i.
  - pose proof (kernel_loop_bounds d iter r i cr ci). simpl. lia.
  - cbn [Nat.add GpuSet.kernel_loop]. destruct (Qgtb _ _); [lia |].
    rewrite IH. lia.
Qed.

(** X3: the cap only cuts the count: the count under a cap [m] is the
    smaller of [m] and the count under any larger cap, for both
    kernels. *)
Theorem cap_only_truncates (re im : Q) (m m' : Z) :
  0 <= m <= m' ->
  GpuSet.escape_iter re im m = Z.min m (GpuSet.escape_iter re im m') /\
  SetPy.mandelbrot (re, im) m = Z.min m (SetPy.mandelbrot (re, im) m').
Proof.
  intros Hm.
  assert (GpuSet.escape_iter re im m = Z.min m (GpuSet.escape_iter re im m'))
    as Hk.
  { unfold GpuSet.escape_iter.
    replace (Z.to_nat m') with (Z.to_nat m + Z.to_nat (m' - m))%nat by lia.
    rewrite (kernel_loop_cap (Z.to_nat m) (Z.to_nat (m' - m))). lia. }
  split; [exact Hk |].
  by rewrite !mandelbrot_is_escape_iter by lia.
Qed.

Lemma cap_only_truncates_witness :
  GpuSet.escape_iter (3 # 10) (6 # 10) 4
    = Z.min 4 (GpuSet.escape_iter (3 # 10) (6 # 10) 9) /\
  SetPy.mandelbrot (3 # 10, 6 # 10)%Q 4
    = Z.min 4 (SetPy.mandelbrot (3 # 10, 6 # 10)%Q 9).
Proof. apply cap_only_truncates. lia. Defined.

Lemma kernel_loop_conjugate (fuel : nat) (iter : Z) (r i cr ci i' ci' : Q) :
  (i' == - i)%Q -> (ci' == - ci)%Q ->
  GpuSet.kernel_loop fuel iter r i' cr ci' =
  GpuSet.kernel_loop fuel iter r i cr ci.
Proof.
  intros Hi Hci. revert iter r i i' Hi.
  induction fuel as [| fuel IH]; intros iter r i i' Hi; simpl; [done |].
  rewrite (Qgtb_Qeq (r * r + i' * i') (r * r + i * i)) by (rewrite Hi; ring).
  destruct (Qgtb _ _); [done |].
  rewrite (IH (iter + 1) _ (2 * r * i + ci)%Q) by (rewrite Hi, Hci; ring).
  apply kernel_loop_Qeq; rewrite ?Hi; try reflexivity; ring.
Qed.

(** X4: the count is the same at a point and at its complex conjugate,
    for both kernels: the picture is symmetric about the real axis. *)
Theorem count_of_conjugate (re im : Q) (max_iter : Z) :
  GpuSet.escape_iter re (- im) max_iter = GpuSet.escape_iter re im max_iter /\
  SetPy.mandelbrot (re, - im)%Q max_iter = SetPy.mandelbrot (re, im) max_iter.
Proof.
  assert (GpuSet.escape_iter re (- im) max_iter
          = GpuSet.escape_iter re im max_iter) as Hk
    by (by apply kernel_loop_conjugate).
  split; [exact Hk |].
  destruct (Z.le_gt_cases 0 max_iter) as [Hm | Hm].
  - by rewrite !mandelbrot_is_escape_iter by done.
  - by rewrite !(proj1 (cap_not_positive_aux _ _ _ (Z.lt_le_incl _ _ Hm))).
Qed.



(** ** Sampling, rows and grids at the edges *)

Lemma py_index_negative {A} (l : list A) (i : Z) :
  - Z.of_nat (length l) <= i < 0 ->
  py_index l i = py_index l (i + Z.of_nat (length l)).
Proof.
  intros Hi. unfold py_index.
  destruct (Z.ltb_spec i 0); [| lia].
  destruct (Z.ltb_spec (i + Z.of_nat (length l)) 0); [lia | done].
Qed.

Lemma py_index_out_of_range {A} (l : list A) (i : Z) :
  Z.of_nat (length l) <= i \/ i < - Z.of_nat (length l) ->
  py_index l i = None.
Proof.
  intros Hi. unfold py_index.
  destruct (Z.ltb_spec i 0).
  - destruct (Z.ltb_spec (i + Z.of_nat (length l)) 0); [done | lia].
  - apply lookup_ge_None. lia.
Qed.

Lemma linspace_Some (start stop : Q) (num : Z) :
  0 <= num ->
  SetPy.linspace start stop num =
  Some (SetPy.linspace_sample start stop num <$> range num).
Proof.
  intros Hn. unfold SetPy.linspace. by destruct (Z.ltb_spec num 0); [lia |].
Qed.

(** For two samples or more, [np.linspace(start, stop, num)] has
    [num] samples, the first is [start], the last (also reached by the
    index -1) is [stop], and neighbouring samples are
    [(stop - start) / (num - 1)] apart. *)
Lemma linspace_ends_and_step (start stop : Q) (num : Z) :
  2 <= num ->
  exists r first last,
    SetPy.linspace start stop num = Some r /\
    Z.of_nat (length r) = num /\
    py_index r 0 = Some first /\ (first == start)%Q /\
    py_index r (num - 1) = Some last /\ py_index r (-1) = Some last /\
    (last == stop)%Q /\
    forall i a b, 0 <= i < num - 1 ->
      py_index r i = Some a -> py_index r (i + 1) = Some b ->
      (b - a == (stop - start) / inject_Z (num - 1))%Q.
Proof.
  intros Hn.
  assert (~ (inject_Z (num - 1) == 0)%Q) as Hnz.
  { intros Hz. apply (inject_Z_injective (num - 1) 0) in Hz. lia. }
  assert (forall i, 0 <= i < num ->
            py_index (SetPy.linspace_sample start stop num <$> range num) i
            = Some (SetPy.linspace_sample start stop num i)) as Hat.
  { intros i Hi.
    rewrite py_index_nonneg, list_lookup_fmap, range_lookup by lia.
    simpl. by rewrite Z2Nat.id by lia. }
  assert (length (SetPy.linspace_sample start stop num <$> range num)
          = Z.to_nat num) as Hlen by (by rewrite length_fmap, range_length).
  eexists _, _, _. split; [apply linspace_Some; lia |].
  split; [rewrite Hlen; lia |].
  split; [apply Hat; lia |].
  split.
  { unfold SetPy.linspace_sample. destruct (Z.ltb_spec 0 (num - 1)); [| lia].
    by field. }
  split; [apply Hat; lia |].
  split.
  { rewrite py_index_negative by (rewrite Hlen; lia).
    rewrite Hlen. replace (-1 + Z.of_nat (Z.to_nat num)) with (num - 1) by lia.
    apply Hat. lia. }
  split; [apply linspace_last_is_stop; lia |].
  intros i a b Hi Ha Hb. rewrite Hat in Ha, Hb by lia.
  injection Ha as <-. injection Hb as <-.
  unfold SetPy.linspace_sample. destruct (Z.ltb_spec 0 (num - 1)); [| lia].
  rewrite inject_Z_plus. by field.
Qed.

Lemma linspace_ends_and_step_witness :
  exists r first last,
    SetPy.linspace (-2) 1 SetPy.RENDER_WIDTH = Some r /\
    Z.of_nat (length r) = SetPy.RENDER_WIDTH /\
    py_index r 0 = Some first /\ (first == -2)%Q /\
    py_index r (SetPy.RENDER_WIDTH - 1) = Some last /\
    py_index r (-1) = Some last /\
    (last == 1)%Q /\
    forall i a b, 0 <= i < SetPy.RENDER_WIDTH - 1 ->
      py_index r i = Some a -> py_index r (i + 1) = Some b ->
      (b - a == (1 - -2) / inject_Z (SetPy.RENDER_WIDTH - 1))%Q.
Proof. apply linspace_ends_and_step. unfold SetPy.RENDER_WIDTH. lia. Defined.

(** X6: [mandelbrot_row] indexes the samples as Python does: a row index
    from [-height] to [-1] gives the row [y + height], and an index from
    [height] on, or below [-height], raises when there is a pixel to
    compute. *)
Theorem mandelbrot_row_index (xmin xmax ymin ymax : Q)
    (width height max_iter y : Z) :
  0 < width -> 0 <= height ->
  (- height <= y < 0 ->
   SetPy.mandelbrot_row xmin xmax ymin ymax width height max_iter y =
   SetPy.mandelbrot_row xmin xmax ymin ymax width height max_iter (y + height)) /\
  (height <= y \/ y < - height ->
   SetPy.mandelbrot_row xmin xmax ymin ymax width height max_iter y = None).
Proof.
  intros Hw Hh. unfold SetPy.mandelbrot_row.
  rewrite !linspace_Some by lia. simpl.
  set (r1 := SetPy.linspace_sample xmin xmax width <$> range width).
  set (r2 := SetPy.linspace_sample ymin ymax height <$> range height).
  assert (Z.of_nat (length r2) = height) as Hlen.
  { unfold r2. rewrite length_fmap, range_length. lia. }
  split.
  - intros Hy. apply mapM_ext. intros x.
    by rewrite (py_index_negative r2 y), Hlen by lia.
  - intros Hy. apply mapM_None, Exists_exists. exists 0. split.
    + apply elem_of_range. lia.
    + rewrite (py_index_out_of_range r2 y) by lia.
      by destruct (py_index r1 0).
Qed.

Lemma mandelbrot_row_index_witness :
  (- 3 <= -1 < 0 ->
   SetPy.mandelbrot_row (-2) 1 (-1) 1 4 3 6 (-1) =
   SetPy.mandelbrot_row (-2) 1 (-1) 1 4 3 6 (-1 + 3)) /\
  (3 <= -1 \/ -1 < - 3 ->
   SetPy.mandelbrot_row (-2) 1 (-1) 1 4 3 6 (-1) = None).
Proof. apply (mandelbrot_row_index (-2) 1 (-1) 1 4 3 6 (-1)); lia. Defined.

(** X7: a negative width makes both renderers raise: [np.linspace] in
    every row of the thread pool (when there is a row), [np.empty] in the
    OpenCL renderer. *)
Theorem negative_width_raises (xmin xmax ymin ymax : Q)
    (width height max_iter : Z) (order : list nat) :
  width < 0 -> 0 < height ->
  order ≡ₚ seq 0 (Z.to_nat height) ->
  SetPy.mandelbrot_set xmin xmax ymin ymax width height max_iter order = None /\
  GpuSet.mandelbrot_set xmin xmax ymin ymax width height max_iter = None.
Proof.
  intros Hw Hh Hp. split.
  - unfold SetPy.mandelbrot_set.
    rewrite executor_map_permutation by (by rewrite range_length).
    apply mapM_None, Exists_exists. exists 0. split.
    + apply elem_of_range. lia.
    + unfold SetPy.mandelbrot_row, SetPy.linspace.
      by destruct (Z.ltb_spec width 0); [| lia].
  - unfold GpuSet.mandelbrot_set, GpuSet.mandelbrot_set_raises.
    by destruct (Z.ltb_spec width 0); [| lia].
Qed.

Lemma negative_width_raises_witness :
  SetPy.mandelbrot_set (-2) 1 (-1) 1 (-4) 2 6 [1; 0]%nat = None /\
  GpuSet.mandelbrot_set (-2) 1 (-1) 1 (-4) 2 6 = None.
Proof.
  apply negative_width_raises; [lia | lia |]. simpl. apply perm_swap.
Defined.



(** ** The zoom of gpuset.py, further *)

Lemma Qtrunc_scale (w : Z) (f : Q) :
  Qtrunc (inject_Z w * f) = Z.quot (w * Qnum f) (Z.pos (Qden f)).
Proof. by destruct f. Qed.

Lemma Qtrunc_scale_nonneg (w : Z) (f : Q) :
  0 <= w -> (0 <= f)%Q -> 0 <= Qtrunc (inject_Z w * f).
Proof.
  intros Hw Hf. rewrite Qtrunc_scale. unfold Qle in Hf. simpl in Hf.
  apply Z.quot_pos; nia.
Qed.

Lemma Qtrunc_scale_up (w : Z) (f : Q) :
  0 <= w -> (1 <= f)%Q -> w <= Qtrunc (inject_Z w * f).
Proof.
  intros Hw Hf. rewrite Qtrunc_scale. unfold Qle in Hf. simpl in Hf.
  apply Z.quot_le_lower_bound; nia.
Qed.

Lemma Qtrunc_scale_down (w : Z) (f : Q) :
  0 < w -> (0 < f)%Q -> (f < 1)%Q -> Qtrunc (inject_Z w * f) < w.
Proof.
  intros Hw Hf0 Hf1. rewrite Qtrunc_scale.
  unfold Qlt in Hf0, Hf1. simpl in Hf0, Hf1.
  apply Z.quot_lt_upper_bound; nia.
Qed.

Lemma Qtrunc_scale_zero (f : Q) : Qtrunc (inject_Z 0 * f) = 0.
Proof. rewrite Qtrunc_scale. by rewrite Z.mul_0_l. Qed.



(** X10: a zoom with a factor of at least 1 never lowers the resolution
    or the cap of a view whose resolution and cap are within their
    ceilings, and keeps them within the ceilings. *)
Theorem zoom_in_never_lowers (f : Q) (mouse_x mouse_y : Z) (v : GpuSet.View) :
  (1 <= f)%Q ->
  0 <= GpuSet.RENDER_WIDTH v <= GpuSet.MAX_RENDER_WIDTH ->
  0 <= GpuSet.RENDER_HEIGHT v <= GpuSet.MAX_RENDER_HEIGHT ->
  0 <= GpuSet.MAX_ITER v <= 2048 ->
  exists v',
    GpuSet.auto_zoom f mouse_x mouse_y v = Some v' /\
    GpuSet.RENDER_WIDTH v <= GpuSet.RENDER_WIDTH v' <= GpuSet.MAX_RENDER_WIDTH /\
    GpuSet.RENDER_HEIGHT v <= GpuSet.RENDER_HEIGHT v' <= GpuSet.MAX_RENDER_HEIGHT /\
    GpuSet.MAX_ITER v <= GpuSet.MAX_ITER v' <= 2048.
Proof.
  intros Hf Hw Hh Hm.
  eexists. split; [apply auto_zoom_pos; lra |]. simpl.
  pose proof (Qtrunc_scale_up (GpuSet.RENDER_WIDTH v) f (proj1 Hw) Hf).
  pose proof (Qtrunc_scale_up (GpuSet.RENDER_HEIGHT v) f (proj1 Hh) Hf).
  pose proof (Qtrunc_scale_up (GpuSet.MAX_ITER v) f (proj1 Hm) Hf).
  lia.
Qed.

Lemma zoom_in_never_lowers_witness :
  exists v',
    GpuSet.auto_zoom GpuSet.ZOOM_FACTOR 10 20 GpuSet.initial_view = Some v' /\
    GpuSet.RENDER_WIDTH GpuSet.initial_view <= GpuSet.RENDER_WIDTH v'
      <= GpuSet.MAX_RENDER_WIDTH /\
    GpuSet.RENDER_HEIGHT GpuSet.initial_view <= GpuSet.RENDER_HEIGHT v'
      <= GpuSet.MAX_RENDER_HEIGHT /\
    GpuSet.MAX_ITER GpuSet.initial_view <= GpuSet.MAX_ITER v' <= 2048.
Proof.
  apply (zoom_in_never_lowers GpuSet.ZOOM_FACTOR 10 20 GpuSet.initial_view);
    [by vm_compute | by vm_compute | by vm_compute | by vm_compute].
Defined.

(** X11: a zoom with a factor strictly between 0 and 1 strictly lowers a
    positive resolution and a positive cap (they stay non-negative):
    nothing holds them at the minimum resolution or at the initial cap. *)
Theorem zoom_out_strictly_lowers (f : Q) (mouse_x mouse_y : Z) (v : GpuSet.View) :
  (0 < f)%Q -> (f < 1)%Q ->
  0 < GpuSet.RENDER_WIDTH v -> 0 < GpuSet.RENDER_HEIGHT v ->
  0 < GpuSet.MAX_ITER v ->
  exists v',
    GpuSet.auto_zoom f mouse_x mouse_y v = Some v' /\
    0 <= GpuSet.RENDER_WIDTH v' < GpuSet.RENDER_WIDTH v /\
    0 <= GpuSet.RENDER_HEIGHT v' < GpuSet.RENDER_HEIGHT v /\
    0 <= GpuSet.MAX_ITER v' < GpuSet.MAX_ITER v.
Proof.
  intros Hf0 Hf1 Hw Hh Hm.
  eexists. split; [by apply auto_zoom_pos |]. simpl.
  pose proof (Qtrunc_scale_down (GpuSet.RENDER_WIDTH v) f Hw Hf0 Hf1).
  pose proof (Qtrunc_scale_down (GpuSet.RENDER_HEIGHT v) f Hh Hf0 Hf1).
  pose proof (Qtrunc_scale_down (GpuSet.MAX_ITER v) f Hm Hf0 Hf1).
  assert (0 <= f)%Q as Hf by lra.
  pose proof (Qtrunc_scale_nonneg (GpuSet.RENDER_WIDTH v) f (Z.lt_le_incl _ _ Hw) Hf).
  pose proof (Qtrunc_scale_nonneg (GpuSet.RENDER_HEIGHT v) f (Z.lt_le_incl _ _ Hh) Hf).
  pose proof (Qtrunc_scale_nonneg (GpuSet.MAX_ITER v) f (Z.lt_le_incl _ _ Hm) Hf).
  unfold GpuSet.MAX_RENDER_WIDTH, GpuSet.MAX_RENDER_HEIGHT, GpuSet.WIDTH,
    GpuSet.HEIGHT.
  lia.
Qed.

Lemma zoom_out_strictly_lowers_witness :
  exists v',
    GpuSet.auto_zoom (1 / GpuSet.ZOOM_FACTOR) 10 20 GpuSet.initial_view
      = Some v' /\
    0 <= GpuSet.RENDER_WIDTH v' < GpuSet.RENDER_WIDTH GpuSet.initial_view /\
    0 <= GpuSet.RENDER_HEIGHT v' < GpuSet.RENDER_HEIGHT GpuSet.initial_view /\
    0 <= GpuSet.MAX_ITER v' < GpuSet.MAX_ITER GpuSet.initial_view.
Proof.
  apply (zoom_out_strictly_lowers (1 / GpuSet.ZOOM_FACTOR) 10 20
           GpuSet.initial_view); reflexivity.
Defined.

Lemma zoom_many_shrinks (f : Q) (ps : list (Z * Z)) (v : GpuSet.View) :
  (0 < f)%Q -> (f < 1)%Q ->
  0 <= GpuSet.RENDER_WIDTH v -> 0 <= GpuSet.RENDER_HEIGHT v ->
  0 <= GpuSet.MAX_ITER v ->
  exists v',
    GpuMain.zoom_many f ps v = Some v' /\
    0 <= GpuSet.RENDER_WIDTH v'
      <= Z.max 0 (GpuSet.RENDER_WIDTH v - Z.of_nat (length ps)) /\
    0 <= GpuSet.RENDER_HEIGHT v'
      <= Z.max 0 (GpuSet.RENDER_HEIGHT v - Z.of_nat (length ps)) /\
    0 <= GpuSet.MAX_ITER v'
      <= Z.max 0 (GpuSet.MAX_ITER v - Z.of_nat (length ps)).
Proof.
  intros Hf0 Hf1. assert (0 <= f)%Q as Hf by lra.
  unfold GpuMain.zoom_many. revert v.
  induction ps as [| [x y] ps IH]; intros v Hw Hh Hm.
  - exists v. simpl. split; [done |]. lia.
  - cbn [for_in]. rewrite auto_zoom_pos by done. cbn [mbind option_bind].
    set (v1 := GpuSet.mkView _ _ _ _ _ _ _).
    assert (0 <= GpuSet.RENDER_WIDTH v1 <= Z.max 0 (GpuSet.RENDER_WIDTH v - 1)
            /\ 0 <= GpuSet.RENDER_HEIGHT v1
                 <= Z.max 0 (GpuSet.RENDER_HEIGHT v - 1)
            /\ 0 <= GpuSet.MAX_ITER v1 <= Z.max 0 (GpuSet.MAX_ITER v - 1))
      as (Hw1 & Hh1 & Hm1).
    { unfold v1. cbn [GpuSet.RENDER_WIDTH GpuSet.RENDER_HEIGHT GpuSet.MAX_ITER].
      unfold GpuSet.MAX_RENDER_WIDTH, GpuSet.MAX_RENDER_HEIGHT, GpuSet.WIDTH,
        GpuSet.HEIGHT.
      pose proof (Qtrunc_scale_nonneg (GpuSet.RENDER_WIDTH v) f Hw Hf).
      pose proof (Qtrunc_scale_nonneg (GpuSet.RENDER_HEIGHT v) f Hh Hf).
      pose proof (Qtrunc_scale_nonneg (GpuSet.MAX_ITER v) f Hm Hf).
      assert (Qtrunc (inject_Z (GpuSet.RENDER_WIDTH v) * f)
              <= Z.max 0 (GpuSet.RENDER_WIDTH v - 1)).
      { destruct (decide (GpuSet.RENDER_WIDTH v = 0)) as [-> | ?].
        - by rewrite Qtrunc_scale_zero.
        - pose proof (Qtrunc_scale_down (GpuSet.RENDER_WIDTH v) f ltac:(lia) Hf0 Hf1).
          lia. }
      assert (Qtrunc (inject_Z (GpuSet.RENDER_HEIGHT v) * f)
              <= Z.max 0 (GpuSet.RENDER_HEIGHT v - 1)).
      { destruct (decide (GpuSet.RENDER_HEIGHT v = 0)) as [-> | ?].
        - by rewrite Qtrunc_scale_zero.
        - pose proof (Qtrunc_scale_down (GpuSet.RENDER_HEIGHT v) f ltac:(lia) Hf0 Hf1).
          lia. }
      assert (Qtrunc (inject_Z (GpuSet.MAX_ITER v) * f)
              <= Z.max 0 (GpuSet.MAX_ITER v - 1)).
      { destruct (decide (GpuSet.MAX_ITER v = 0)) as [-> | ?].
        - by rewrite Qtrunc_scale_zero.
        - pose proof (Qtrunc_scale_down (GpuSet.MAX_ITER v) f ltac:(lia) Hf0 Hf1).
          lia. }
      lia. }
    destruct (IH v1) as (v' & Hrun & Hw' & Hh' & Hm'); [lia | lia | lia |].
    exists v'. split; [exact Hrun |]. cbn [length]. lia.
Qed.

(** X12: with no floor under them, resolution and cap fall to 0 under
    repeated zoom-out (at the latest after as many zooms as their value),
    and from 0 no zoom, in or out, brings them back. *)
Theorem zoom_out_collapses (f : Q) (ps : list (Z * Z)) (v : GpuSet.View) :
  (0 < f)%Q -> (f < 1)%Q ->
  0 <= GpuSet.RENDER_WIDTH v <= Z.of_nat (length ps) ->
  0 <= GpuSet.RENDER_HEIGHT v <= Z.of_nat (length ps) ->
  0 <= GpuSet.MAX_ITER v <= Z.of_nat (length ps) ->
  exists v',
    GpuMain.zoom_many f ps v = Some v' /\
    GpuSet.RENDER_WIDTH v' = 0 /\ GpuSet.RENDER_HEIGHT v' = 0 /\
    GpuSet.MAX_ITER v' = 0 /\
    forall g x y, (0 < g)%Q ->
      exists v'',
        GpuSet.auto_zoom g x y v' = Some v'' /\
        GpuSet.RENDER_WIDTH v'' = 0 /\ GpuSet.RENDER_HEIGHT v'' = 0 /\
        GpuSet.MAX_ITER v'' = 0.
Proof.
  intros Hf0 Hf1 Hw Hh Hm.
  destruct (zoom_many_shrinks f ps v) as (v' & Hrun & Hw' & Hh' & Hm');
    [done | done | lia | lia | lia |].
  exists v'. split; [exact Hrun |].
  assert (GpuSet.RENDER_WIDTH v' = 0) as Ew by lia.
  assert (GpuSet.RENDER_HEIGHT v' = 0) as Eh by lia.
  assert (GpuSet.MAX_ITER v' = 0) as Em by lia.
  repeat apply conj; try done.
  intros g x y Hg. eexists. split; [by apply auto_zoom_pos |]. simpl.
  rewrite Ew, Eh, Em, !Qtrunc_scale_zero. done.
Qed.

Lemma zoom_out_collapses_witness :
  exists v',
    GpuMain.zoom_many (1 / GpuSet.ZOOM_FACTOR) [(0, 0); (5, 5); (9, 9)]
      (GpuSet.mkView (-2) 1 (-1) 1 3 2 3) = Some v' /\
    GpuSet.RENDER_WIDTH v' = 0 /\ GpuSet.RENDER_HEIGHT v' = 0 /\
    GpuSet.MAX_ITER v' = 0 /\
    forall g x y, (0 < g)%Q ->
      exists v'',
        GpuSet.auto_zoom g x y v' = Some v'' /\
        GpuSet.RENDER_WIDTH v'' = 0 /\ GpuSet.RENDER_HEIGHT v'' = 0 /\
        GpuSet.MAX_ITER v'' = 0.
Proof.
  apply (zoom_out_collapses (1 / GpuSet.ZOOM_FACTOR) [(0, 0); (5, 5); (9, 9)]
           (GpuSet.mkView (-2) 1 (-1) 1 3 2 3));
    [reflexivity | reflexivity | simpl; lia | simpl; lia | simpl; lia].
Defined.

(** X13: at the centre of the window zooms compose: a zoom by [f1] then
    a zoom by [f2], both at (400, 300), give the plane bounds of one zoom
    by [f1 * f2] there. *)
Theorem zooms_at_centre_compose (f1 f2 : Q) (v : GpuSet.View) :
  (0 < f1)%Q -> (0 < f2)%Q ->
  exists v1 v2 v12,
    GpuSet.auto_zoom f1 400 300 v = Some v1 /\
    GpuSet.auto_zoom f2 400 300 v1 = Some v2 /\
    GpuSet.auto_zoom (f1 * f2) 400 300 v = Some v12 /\
    (GpuSet.xmin v2 == GpuSet.xmin v12)%Q /\
    (GpuSet.xmax v2 == GpuSet.xmax v12)%Q /\
    (GpuSet.ymin v2 == GpuSet.ymin v12)%Q /\
    (GpuSet.ymax v2 == GpuSet.ymax v12)%Q.
Proof.
  intros Hf1 Hf2.
  assert (~ (f1 == 0)%Q) by lra. assert (~ (f2 == 0)%Q) by lra.
  assert (0 < f1 * f2)%Q as Hf12.
  { by apply Qmult_lt_0_compat. }
  eexists _, _, _. split; [by apply auto_zoom_pos |].
  split; [by apply auto_zoom_pos |]. split; [by apply auto_zoom_pos |].
  unfold GpuSet.WIDTH, GpuSet.HEIGHT. simpl.
  repeat apply conj; field; done.
Qed.

Lemma zooms_at_centre_compose_witness :
  exists v1 v2 v12,
    GpuSet.auto_zoom GpuSet.ZOOM_FACTOR 400 300 GpuSet.initial_view = Some v1 /\
    GpuSet.auto_zoom (3 # 2) 400 300 v1 = Some v2 /\
    GpuSet.auto_zoom (GpuSet.ZOOM_FACTOR * (3 # 2)) 400 300 GpuSet.initial_view
      = Some v12 /\
    (GpuSet.xmin v2 == GpuSet.xmin v12)%Q /\
    (GpuSet.xmax v2 == GpuSet.xmax v12)%Q /\
    (GpuSet.ymin v2 == GpuSet.ymin v12)%Q /\
    (GpuSet.ymax v2 == GpuSet.ymax v12)%Q.
Proof.
  apply (zooms_at_centre_compose GpuSet.ZOOM_FACTOR (3 # 2) GpuSet.initial_view);
    reflexivity.
Defined.

(** ** The main loop of set.py *)

Lemma linspace_render_index (lo hi : Q) (num i : Z) :
  0 <= i < num ->
  (r ← SetPy.linspace lo hi num; py_index r i)
  = Some (SetPy.linspace_sample lo hi num i).
Proof.
  intros Hi. rewrite linspace_Some by lia. simpl.
  rewrite py_index_nonneg, list_lookup_fmap, range_lookup by lia.
  simpl. by rewrite Z2Nat.id by lia.
Qed.




(** X15: the wheel zooms about the centre of the view: the centre is
    kept, and a turn up followed by a turn down (or down then up) gives
    back the plane bounds. *)
Theorem wheel_round_trip (zoom_in : bool) (s : SetPyMain.State) :
  let s1 := SetPyMain.wheel_zoom zoom_in s in
  let s2 := SetPyMain.wheel_zoom (negb zoom_in) s1 in
  ((SetPyMain.xmin s1 + SetPyMain.xmax s1) / 2 ==
   (SetPyMain.xmin s + SetPyMain.xmax s) / 2)%Q /\
  ((SetPyMain.ymin s1 + SetPyMain.ymax s1) / 2 ==
   (SetPyMain.ymin s + SetPyMain.ymax s) / 2)%Q /\
  (SetPyMain.xmin s2 == SetPyMain.xmin s)%Q /\
  (SetPyMain.xmax s2 == SetPyMain.xmax s)%Q /\
  (SetPyMain.ymin s2 == SetPyMain.ymin s)%Q /\
  (SetPyMain.ymax s2 == SetPyMain.ymax s)%Q.
Proof.
  unfold SetPyMain.wheel_zoom, SetPy.ZOOM_FACTOR.
  destruct zoom_in; cbn [negb SetPyMain.xmin SetPyMain.xmax SetPyMain.ymin
                         SetPyMain.ymax];
    repeat apply conj; field.
Qed.




(** ** Drawing, further *)

(** The two nested loops of [draw_mandelbrot] again, with what they leave
    alone: the pixels outside the image keep their colour. *)
Lemma draw_loops_frame {C} (image_at : Z -> Z -> option Z) (color_of : Z -> C)
    (cell : Z -> Z -> Z) (width height : Z) (surface : gmap (Z * Z) C) :
  (forall x y, 0 <= x < width -> 0 <= y < height ->
     image_at y x = Some (cell y x)) ->
  exists surface',
    for_in (range width) (fun x surface =>
      for_in (range height) (fun y surface =>
        v ← image_at y x; Some (<[(x, y) := color_of v]> surface)) surface)
      surface = Some surface' /\
    (forall x y, 0 <= x < width -> 0 <= y < height ->
       surface' !! (x, y) = Some (color_of (cell y x))) /\
    (forall x y, ~ (0 <= x < width /\ 0 <= y < height) ->
       surface' !! (x, y) = surface !! (x, y)).
Proof.
  intros Himg.
  set (col := fun x y => color_of (cell y x)).
  exists (paint col (range width) (range height) surface). split; [| split].
  - unfold paint. apply for_in_total. intros x s Hx%elem_of_range.
    unfold paint_column. apply for_in_total. intros y s' Hy%elem_of_range.
    by rewrite Himg.
  - intros x y Hx Hy. rewrite paint_lookup, decide_True; [done |].
    split; by apply elem_of_range.
  - intros x y Hout. rewrite paint_lookup, decide_False; [done |].
    intros [Hx%elem_of_range Hy%elem_of_range]. by apply Hout.
Qed.

Lemma gpu_color_of_bytes (i max_iter : Z) :
  let '(r, g, b) := GpuSet.color_of i max_iter in
  0 <= r <= 255 /\ 0 <= g <= 255 /\ 0 <= b <= 255.
Proof.
  unfold GpuSet.color_of. destruct (i =? max_iter); [lia |].
  pose proof (Z.mod_pos_bound i 256).
  pose proof (Z.mod_pos_bound (i * 5) 256).
  pose proof (Z.mod_pos_bound (i * 13) 256). lia.
Qed.

Lemma setpy_grey_byte (v : Z) :
  0 <= v <= SetPy.MAX_ITER -> 0 <= Z.quot (v * 255) 256 <= 255.
Proof.
  unfold SetPy.MAX_ITER. intros Hv. split.
  - apply Z.quot_pos; lia.
  - apply Z.quot_le_upper_bound; lia.
Qed.

(** X17: the colours are valid 8-bit colours: each channel of the colour
    gpuset.py gives to any count is in [[0, 255]], and so is the grey
    set.py gives to a count between 0 and its cap 256. *)
Theorem colours_are_bytes (i max_iter v : Z) :
  0 <= v <= SetPy.MAX_ITER ->
  (exists r g b,
     GpuSet.color_of i max_iter = (r, g, b) /\
     0 <= r <= 255 /\ 0 <= g <= 255 /\ 0 <= b <= 255) /\
  (exists g, SetPy.color_of v = (g, g, g) /\ 0 <= g <= 255).
Proof.
  intros Hv. split.
  - pose proof (gpu_color_of_bytes i max_iter) as Hb.
    destruct (GpuSet.color_of i max_iter) as [[r g] b]. by exists r, g, b.
  - eexists. split; [apply setpy_color_of_eq |]. by apply setpy_grey_byte.
Qed.

Lemma colours_are_bytes_witness :
  (exists r g b,
     GpuSet.color_of 1000 2048 = (r, g, b) /\
     0 <= r <= 255 /\ 0 <= g <= 255 /\ 0 <= b <= 255) /\
  (exists g, SetPy.color_of 200 = (g, g, g) /\ 0 <= g <= 255).
Proof. apply colours_are_bytes. by vm_compute. Defined.

(** X18: besides the cells equal to the cap, gpuset.py paints black
    exactly the cells whose count is a multiple of 256, among them the
    points that leave at once (count 0). *)
Theorem black_cells (i max_iter : Z) :
  GpuSet.color_of i max_iter = (0, 0, 0) <-> i = max_iter \/ i `mod` 256 = 0.
Proof.
  unfold GpuSet.color_of. destruct (Z.eqb_spec i max_iter) as [-> | Hne].
  - split; [by left | done].
  - split.
    + intros [= H1 _ _]. by right.
    + intros [? | H0]; [done |].
      rewrite <- (Z.mul_mod_idemp_l i 5), <- (Z.mul_mod_idemp_l i 13) by lia.
      by rewrite H0.
Qed.

(** X19: the palette of gpuset.py has period 256: counts 256 apart get
    the same colour, when neither is the cap. *)
Theorem palette_period (i max_iter : Z) :
  i <> max_iter -> i + 256 <> max_iter ->
  GpuSet.color_of (i + 256) max_iter = GpuSet.color_of i max_iter.
Proof.
  intros H1 H2. unfold GpuSet.color_of.
  destruct (Z.eqb_spec i max_iter); [done |].
  destruct (Z.eqb_spec (i + 256) max_iter); [done |].
  f_equal; [f_equal |].
  - replace (i + 256) with (i + 1 * 256) by lia. apply Z.mod_add. lia.
  - replace ((i + 256) * 5) with (i * 5 + 5 * 256) by lia. apply Z.mod_add. lia.
  - replace ((i + 256) * 13) with (i * 13 + 13 * 256) by lia.
    apply Z.mod_add. lia.
Qed.

Lemma palette_period_witness :
  GpuSet.color_of (7 + 256) 2048 = GpuSet.color_of 7 2048.
Proof. apply palette_period; lia. Defined.



(** ** A frame from the view to the pixels *)

(** The grids as the cells [draw_mandelbrot] reads from them. *)
Lemma setpy_mandelbrot_set_cells (xmin xmax ymin ymax : Q)
    (width height max_iter : Z) (order : list nat) :
  0 <= width ->
  order ≡ₚ seq 0 (Z.to_nat height) ->
  exists img,
    SetPy.mandelbrot_set xmin xmax ymin ymax width height max_iter order
      = Some img /\
    forall x y, 0 <= x < width -> 0 <= y < height ->
      SetPy.image_at img y x =
      Some (SetPy.mandelbrot
              (SetPy.linspace_sample xmin xmax width x,
               SetPy.linspace_sample ymin ymax height y) max_iter).
Proof.
  intros Hw Hp. eexists. split; [by apply setpy_mandelbrot_set_eq |].
  intros x y Hx Hy. unfold SetPy.image_at.
  by rewrite (grid_lookup (fun y x => SetPy.mandelbrot _ max_iter)).
Qed.


(** [update] for any render size, so that nothing of the proof depends on
    the 400 x 300 of the program. *)
Lemma update_at_size (xmin xmax ymin ymax : Q) (width height max_iter : Z)
    (surface : gmap (Z * Z) SetPy.Color) (order : list nat) :
  0 <= width -> 0 <= max_iter <= SetPy.MAX_ITER ->
  order ≡ₚ seq 0 (Z.to_nat height) ->
  exists surface',
    (mandelbrot_image ←
       SetPy.mandelbrot_set xmin xmax ymin ymax width height max_iter order;
     SetPy.draw_mandelbrot surface mandelbrot_image width height)
    = Some surface' /\
    (forall x y, 0 <= x < width -> 0 <= y < height ->
       exists g,
         surface' !! (x, y) = Some (g, g, g) /\ 0 <= g <= 255 /\
         g = Z.quot
               (SetPy.mandelbrot
                  (SetPy.linspace_sample xmin xmax width x,
                   SetPy.linspace_sample ymin ymax height y) max_iter * 255)
               256) /\
    (forall x y, ~ (0 <= x < width /\ 0 <= y < height) ->
       surface' !! (x, y) = surface !! (x, y)).
Proof.
  intros Hw Hm Hp.
  destruct (setpy_mandelbrot_set_cells xmin xmax ymin ymax width height
              max_iter order Hw Hp) as (img & -> & Hcell).
  cbn [mbind option_bind].
  destruct (draw_loops_frame (fun y x => SetPy.image_at img y x)
              SetPy.color_of
              (fun y x =>
                 SetPy.mandelbrot
                   (SetPy.linspace_sample xmin xmax width x,
                    SetPy.linspace_sample ymin ymax height y) max_iter)
              width height surface Hcell)
    as (s' & Hs' & Hin & Hout).
  exists s'. split; [exact Hs' |]. split; [| exact Hout].
  intros x y Hx Hy. eexists. split; [| split; [| reflexivity]].
  - etrans; [exact (Hin x y Hx Hy) |]. f_equal. apply setpy_color_of_eq.
  - apply setpy_grey_byte.
    pose proof (mandelbrot_bounds
                  (SetPy.linspace_sample xmin xmax width x,
                   SetPy.linspace_sample ymin ymax height y) max_iter).
    lia.
Qed.

(** X21: the redraw of set.py goes through: with a redraw pending, for
    every order in which the pool completes the rows, [update] computes
    the 400 x 300 grid of the view and paints every pixel [(x, y)] of it
    with the grey [trunc(count * 255 / 256)] of the count at the samples
    [x] and [y] of the view, a value in [[0, 255]]; the rest of the
    surface and the bounds are unchanged and the request is cleared. *)
Theorem setpy_update_paints_the_view (s : SetPyMain.State)
    (surface : gmap (Z * Z) SetPy.Color) (order : list nat) :
  SetPyMain.needs_update s = true ->
  order ≡ₚ seq 0 (Z.to_nat SetPy.RENDER_HEIGHT) ->
  exists surface',
    SetPyMain.update s surface order =
    Some (SetPyMain.mkState (SetPyMain.xmin s) (SetPyMain.xmax s)
            (SetPyMain.ymin s) (SetPyMain.ymax s) (SetPyMain.running s) false,
          surface') /\
    (forall x y, 0 <= x < SetPy.RENDER_WIDTH -> 0 <= y < SetPy.RENDER_HEIGHT ->
       exists g,
         surface' !! (x, y) = Some (g, g, g) /\ 0 <= g <= 255 /\
         g = Z.quot
               (SetPy.mandelbrot
                  (SetPy.linspace_sample (SetPyMain.xmin s) (SetPyMain.xmax s)
                     SetPy.RENDER_WIDTH x,
                   SetPy.linspace_sample (SetPyMain.ymin s) (SetPyMain.ymax s)
                     SetPy.RENDER_HEIGHT y) SetPy.MAX_ITER * 255) 256) /\
    (forall x y,
       ~ (0 <= x < SetPy.RENDER_WIDTH /\ 0 <= y < SetPy.RENDER_HEIGHT) ->
       surface' !! (x, y) = surface !! (x, y)).
Proof.
  intros Hn Hp.
  destruct (update_at_size (SetPyMain.xmin s) (SetPyMain.xmax s)
              (SetPyMain.ymin s) (SetPyMain.ymax s) SetPy.RENDER_WIDTH
              SetPy.RENDER_HEIGHT SetPy.MAX_ITER surface order)
    as (s' & Hs' & Hin & Hout); [by vm_compute | by vm_compute | exact Hp |].
  exists s'. split; [| split; [exact Hin | exact Hout]].
  unfold SetPyMain.update. rewrite Hn.
  destruct (SetPy.mandelbrot_set _ _ _ _ _ _ _ _) as [img |]; [| discriminate Hs'].
  cbn [mbind option_bind] in Hs' |- *. rewrite Hs'. reflexivity.
Qed.

Lemma setpy_update_paints_the_view_witness :
  exists surface',
    SetPyMain.update SetPyMain.initial_state ∅
      (seq 0 (Z.to_nat SetPy.RENDER_HEIGHT)) =
    Some (SetPyMain.mkState (SetPyMain.xmin SetPyMain.initial_state)
            (SetPyMain.xmax SetPyMain.initial_state)
            (SetPyMain.ymin SetPyMain.initial_state)
            (SetPyMain.ymax SetPyMain.initial_state)
            (SetPyMain.running SetPyMain.initial_state) false,
          surface') /\
    (forall x y, 0 <= x < SetPy.RENDER_WIDTH -> 0 <= y < SetPy.RENDER_HEIGHT ->
       exists g,
         surface' !! (x, y) = Some (g, g, g) /\ 0 <= g <= 255 /\
         g = Z.quot
               (SetPy.mandelbrot
                  (SetPy.linspace_sample
                     (SetPyMain.xmin SetPyMain.initial_state)
                     (SetPyMain.xmax SetPyMain.initial_state)
                     SetPy.RENDER_WIDTH x,
                   SetPy.linspace_sample
                     (SetPyMain.ymin SetPyMain.initial_state)
                     (SetPyMain.ymax SetPyMain.initial_state)
                     SetPy.RENDER_HEIGHT y) SetPy.MAX_ITER * 255) 256) /\
    (forall x y,
       ~ (0 <= x < SetPy.RENDER_WIDTH /\ 0 <= y < SetPy.RENDER_HEIGHT) ->
       surface' !! (x, y) = (∅ : gmap (Z * Z) SetPy.Color) !! (x, y)).
Proof.
  exact (setpy_update_paints_the_view SetPyMain.initial_state ∅
           (seq 0 (Z.to_nat SetPy.RENDER_HEIGHT)) eq_refl
           (Permutation_refl _)).
Defined.



(** ** The render thread and the main loop of gpuset.py *)

(** X23: the worker serves the queue to the end: with the thread waiting
    and [n] render tasks queued, [n] rounds of taking a task and
    finishing it run [n] computations of the current view, empty the
    queue and leave the picture of that view for display. *)
Theorem worker_drains_queue (n : nat) (p : GpuSet.Program) :
  GpuSet.render_thread p = GpuSet.Waiting ->
  GpuSet.is_rendering p = false ->
  GpuSet.render_queue p = replicate n GpuSet.TaskRender ->
  exists p',
    GpuSet.run (concat (replicate n [GpuSet.EvWorkerGet; GpuSet.EvWorkerDone])) p
      = Some p' /\
    GpuSet.computations p'
      = GpuSet.computations p ++ replicate n (GpuSet.view p) /\
    GpuSet.render_queue p' = [] /\
    GpuSet.render_thread p' = GpuSet.Waiting /\
    GpuSet.is_rendering p' = false /\
    GpuSet.view p' = GpuSet.view p /\
    (0 < n -> GpuSet.next_render_surface p' = Some (GpuSet.view p))%nat.
Proof.
  revert p. induction n as [| n IH]; intros p Ht Hr Hq.
  - exists p. simpl. rewrite app_nil_r. repeat apply conj; try done. lia.
  - destruct p as [vw q th r nu ns cs]. simpl in Ht, Hr, Hq. subst th r q.
    cbn [replicate concat app GpuSet.run GpuSet.step GpuSet.render_thread
         GpuSet.render_queue GpuSet.view GpuSet.computations
         GpuSet.is_rendering GpuSet.needs_update GpuSet.next_render_surface
         mbind option_bind].
    destruct (IH (GpuSet.mkProgram vw (replicate n GpuSet.TaskRender)
                    GpuSet.Waiting false nu (Some vw) (cs ++ [vw])))
      as (p' & Hrun & Hc & Hq' & Ht' & Hr' & Hv' & Hn'); [done | done | done |].
    exists p'. split; [exact Hrun |].
    cbn [GpuSet.computations GpuSet.view] in Hc, Hv', Hn' |- *.
    repeat apply conj; try done.
    + rewrite Hc, <- (assoc_L (++)). done.
    + intros _. destruct n as [| n'].
      * simpl in Hrun. by injection Hrun as <-.
      * apply Hn'. lia.
Qed.

Lemma worker_drains_queue_witness :
  exists p',
    GpuSet.run (concat (replicate 2 [GpuSet.EvWorkerGet; GpuSet.EvWorkerDone]))
      (GpuSet.start_new_render (GpuSet.start_new_render GpuSet.initial_program))
      = Some p' /\
    GpuSet.computations p'
      = GpuSet.computations
          (GpuSet.start_new_render (GpuSet.start_new_render GpuSet.initial_program))
        ++ replicate 2
             (GpuSet.view
                (GpuSet.start_new_render
                   (GpuSet.start_new_render GpuSet.initial_program))) /\
    GpuSet.render_queue p' = [] /\
    GpuSet.render_thread p' = GpuSet.Waiting /\
    GpuSet.is_rendering p' = false /\
    GpuSet.view p'
      = GpuSet.view
          (GpuSet.start_new_render (GpuSet.start_new_render GpuSet.initial_program)) /\
    (0 < 2 ->
     GpuSet.next_render_surface p'
     = Some (GpuSet.view
               (GpuSet.start_new_render
                  (GpuSet.start_new_render GpuSet.initial_program))))%nat.
Proof.
  apply (worker_drains_queue 2
           (GpuSet.start_new_render
              (GpuSet.start_new_render GpuSet.initial_program)));
    reflexivity.
Defined.

(*MAINLOOP*)

(** X27: no schedule of the two threads ever drops a render request: the
    computations made and the render tasks still queued always add up to
    those there were before plus the requests submitted on the way. *)
Theorem no_request_is_dropped (es : list GpuSet.event) (p p' : GpuSet.Program) :
  GpuSet.run es p = Some p' ->
  (length (GpuSet.computations p') + GpuSet.pending p' =
   length (GpuSet.computations p) + GpuSet.pending p + GpuSet.submitted es p)%nat.
Proof.
  revert p. induction es as [| e es IH]; intros p Hrun; simpl in *.
  - injection Hrun as ->. lia.
  - destruct (GpuSet.step e p) as [p1 |] eqn:Hstep; [| done]. simpl in Hrun.
    rewrite (IH p1 Hrun). clear IH Hrun.
    destruct e as [zf mx my | | | |]; simpl in Hstep.
    + destruct (GpuSet.is_rendering p) eqn:Hr.
      * injection Hstep as <-. lia.
      * destruct (GpuSet.auto_zoom zf mx my (GpuSet.view p)) as [v |]; [| done].
        simpl in Hstep. injection Hstep as <-.
        rewrite pending_put_render. simpl. unfold GpuSet.pending. simpl. lia.
    + injection Hstep as <-. rewrite pending_put_render. simpl. lia.
    + injection Hstep as <-. unfold GpuSet.pending. simpl.
      rewrite filter_app, length_app. simpl. lia.
    + unfold GpuSet.pending.
      destruct (GpuSet.render_thread p); try done.
      destruct (GpuSet.render_queue p) as [| [|] q]; try done;
        injection Hstep as <-; rewrite filter_cons; simpl;
        rewrite ?length_app; simpl; lia.
    + destruct (GpuSet.render_thread p); try done.
      injection Hstep as <-. unfold GpuSet.pending. simpl. lia.
Qed.

Lemma no_request_is_dropped_witness :
  exists p',
    GpuSet.run [GpuSet.EvStartNewRender;
                GpuSet.EvZoom GpuSet.ZOOM_FACTOR 400 300;
                GpuSet.EvWorkerGet;
                GpuSet.EvZoom GpuSet.ZOOM_FACTOR 1 1;
                GpuSet.EvStartNewRender;
                GpuSet.EvWorkerDone]
      GpuSet.initial_program = Some p' /\
    (length (GpuSet.computations p') + GpuSet.pending p' =
     length (GpuSet.computations GpuSet.initial_program)
     + GpuSet.pending GpuSet.initial_program
     + GpuSet.submitted [GpuSet.EvStartNewRender;
                         GpuSet.EvZoom GpuSet.ZOOM_FACTOR 400 300;
                         GpuSet.EvWorkerGet;
                         GpuSet.EvZoom GpuSet.ZOOM_FACTOR 1 1;
                         GpuSet.EvStartNewRender;
                         GpuSet.EvWorkerDone]
         GpuSet.initial_program)%nat.
Proof.
  eexists. split; [reflexivity |].
  apply (no_request_is_dropped
           [GpuSet.EvStartNewRender;
            GpuSet.EvZoom GpuSet.ZOOM_FACTOR 400 300;
            GpuSet.EvWorkerGet;
            GpuSet.EvZoom GpuSet.ZOOM_FACTOR 1 1;
            GpuSet.EvStartNewRender;
            GpuSet.EvWorkerDone] GpuSet.initial_program).
  reflexivity.
Defined.

Lemma run_app (es1 es2 : list GpuSet.event) (p : GpuSet.Program) :
  GpuSet.run (es1 ++ es2) p = GpuSet.run es1 p ≫= GpuSet.run es2.
Proof.
  revert p. induction es1 as [| e es1 IH]; intros p; simpl; [done |].
  destruct (GpuSet.step e p) as [p1 |]; simpl; [apply IH | done].
Qed.

Lemma worker_drains_prefix (n : nat) (rest : list GpuSet.task)
    (p : GpuSet.Program) :
  GpuSet.render_thread p = GpuSet.Waiting ->
  GpuSet.is_rendering p = false ->
  GpuSet.render_queue p = replicate n GpuSet.TaskRender ++ rest ->
  exists p',
    GpuSet.run (concat (replicate n [GpuSet.EvWorkerGet; GpuSet.EvWorkerDone])) p
      = Some p' /\
    GpuSet.computations p'
      = GpuSet.computations p ++ replicate n (GpuSet.view p) /\
    GpuSet.render_queue p' = rest /\
    GpuSet.render_thread p' = GpuSet.Waiting /\
    GpuSet.is_rendering p' = false.
Proof.
  revert p. induction n as [| n IH]; intros p Ht Hr Hq.
  - exists p. simpl. rewrite app_nil_r. by repeat apply conj.
  - destruct p as [vw q th r nu ns cs]. simpl in Ht, Hr, Hq. subst th r q.
    cbn [replicate concat app GpuSet.run GpuSet.step GpuSet.render_thread
         GpuSet.render_queue GpuSet.view GpuSet.computations
         GpuSet.is_rendering GpuSet.needs_update GpuSet.next_render_surface
         mbind option_bind].
    destruct (IH (GpuSet.mkProgram vw (replicate n GpuSet.TaskRender ++ rest)
                    GpuSet.Waiting false nu (Some vw) (cs ++ [vw])))
      as (p' & Hrun & Hc & Hq' & Ht' & Hr'); [done | done | done |].
    exists p'. split; [exact Hrun |].
    cbn [GpuSet.computations GpuSet.view] in Hc |- *.
    repeat apply conj; try done.
    rewrite Hc, <- (assoc_L (++)). done.
Qed.

(** X28: shutdown is served in turn: with [n] render tasks queued ahead
    of the [None] task, the worker first runs the [n] computations, then
    takes [None] and leaves its loop; after that it takes nothing more,
    whatever is still queued, until a call of [start_new_render] finds the
    thread dead and starts a new one. *)
Theorem worker_stops_at_none (n : nat) (rest : list GpuSet.task)
    (p : GpuSet.Program) :
  GpuSet.render_thread p = GpuSet.Waiting ->
  GpuSet.is_rendering p = false ->
  GpuSet.render_queue p
    = replicate n GpuSet.TaskRender ++ GpuSet.TaskStop :: rest ->
  exists p',
    GpuSet.run
      (concat (replicate n [GpuSet.EvWorkerGet; GpuSet.EvWorkerDone])
       ++ [GpuSet.EvWorkerGet]) p = Some p' /\
    GpuSet.render_thread p' = GpuSet.Exited /\
    GpuSet.computations p'
      = GpuSet.computations p ++ replicate n (GpuSet.view p) /\
    GpuSet.render_queue p' = rest /\
    GpuSet.step GpuSet.EvWorkerGet p' = None /\
    GpuSet.step GpuSet.EvWorkerDone p' = None /\
    GpuSet.render_thread (GpuSet.start_new_render p') = GpuSet.Waiting.
Proof.
  intros Ht Hr Hq.
  destruct (worker_drains_prefix n (GpuSet.TaskStop :: rest) p Ht Hr Hq)
    as (p1 & Hrun & Hc & Hq1 & Ht1 & Hr1).
  rewrite run_app, Hrun. cbn [mbind option_bind].
  destruct p1 as [vw q th r nu ns cs]. simpl in Hc, Hq1, Ht1, Hr1.
  subst q th r. eexists. split; [reflexivity |].
  cbn. by repeat apply conj.
Qed.

Lemma worker_stops_at_none_witness :
  exists p',
    GpuSet.run
      (concat (replicate 1 [GpuSet.EvWorkerGet; GpuSet.EvWorkerDone])
       ++ [GpuSet.EvWorkerGet])
      (GpuSet.mkProgram GpuSet.initial_view
         (replicate 1 GpuSet.TaskRender ++ GpuSet.TaskStop :: [GpuSet.TaskRender])
         GpuSet.Waiting false true None []) = Some p' /\
    GpuSet.render_thread p' = GpuSet.Exited /\
    GpuSet.computations p' = [] ++ replicate 1 GpuSet.initial_view /\
    GpuSet.render_queue p' = [GpuSet.TaskRender] /\
    GpuSet.step GpuSet.EvWorkerGet p' = None /\
    GpuSet.step GpuSet.EvWorkerDone p' = None /\
    GpuSet.render_thread (GpuSet.start_new_render p') = GpuSet.Waiting.
Proof.
  apply (worker_stops_at_none 1 [GpuSet.TaskRender]
           (GpuSet.mkProgram GpuSet.initial_view
              (replicate 1 GpuSet.TaskRender
               ++ GpuSet.TaskStop :: [GpuSet.TaskRender])
              GpuSet.Waiting false true None [])); reflexivity.
Defined.
